(** * Ink-genius: the editor store, the designs database and the AI service

  A shallow embedding of the view-state store (undo/redo history, derived
  layer list, layer toggles), of the IndexedDB wrapper [DatabaseService],
  of [TattooAIService] and of the AI tool handlers of the sidebar.

  The fabric canvas, the JSON built-ins, the clock and the hosted model are
  not part of the repository: they appear as the class [Externals], whose
  members are the library calls the source makes.

  An [async] function is embedded as the steps it takes between its
  [await]s: what it does before it waits, and what it does when the promise
  has settled, on the store and the page as they are by then. *)

From stdpp Require Import gmap strings list sorting pretty.
From Stdlib Require Import ZArith Ascii.

(** ** CONFIG *)

Module CONFIG.
Module CANVAS.
Definition WIDTH : Z := 1024.
Definition HEIGHT : Z := 768.
Definition MAX_HISTORY : Z := 50.
End CANVAS.
Definition STYLES : list string :=
  [ "Traditional"; "Neo-Traditional"; "Realism"; "Watercolor";
    "Geometric"; "Minimalist"; "Blackwork"; "Japanese";
    "American Traditional"; "Tribal"; "Biomechanical"; "Dotwork" ].
Definition BODY_PARTS : list string :=
  [ "Arm"; "Forearm"; "Shoulder"; "Back"; "Chest";
    "Leg"; "Thigh"; "Calf"; "Ankle"; "Wrist"; "Neck" ].
End CONFIG.

(** ** The JavaScript the source relies on *)

(** The outcome of evaluating an expression or awaiting a promise: a value,
    or an [Error] thrown with its [message]. *)
Inductive Completion (A : Type) : Type :=
  | Normal (a : A)
  | Throw (message : string).
Arguments Normal {A} a.
Arguments Throw {A} message.

Definition bind {A B} (c : Completion A) (k : A → Completion B) : Completion B :=
  match c with
  | Normal a => k a
  | Throw m => Throw m
  end.

Global Instance Completion_bind : MBind Completion := λ A B k c, bind c k.
Global Instance Completion_ret : MRet Completion := @Normal.

Module Js.

(** [a.length] as a number. *)
Definition length {A} (a : list A) : Z := Z.of_nat (List.length a).

(** [a[i]]: [undefined] (here [None]) outside [0 .. a.length - 1]. *)
Definition index {A} (a : list A) (i : Z) : option A :=
  if decide (0 ≤ i)%Z then a !! Z.to_nat i else None.

(** [a.slice(0, e)]: a negative [e] counts from the end. *)
Definition slice0 {A} (a : list A) (e : Z) : list A :=
  let k := if decide (e < 0)%Z then Z.max (length a + e) 0
           else Z.min e (length a) in
  take (Z.to_nat k) a.

(** [a.push(x)] and [a.shift()], as the array they leave behind. *)
Definition push {A} (a : list A) (x : A) : list A := a ++ [x].
Definition shift {A} (a : list A) : list A := drop 1 a.

(** Truthiness of a value that is a string or [undefined]. *)
Definition truthy (v : option string) : bool :=
  match v with
  | Some s => bool_decide (s ≠ "")
  | None => false
  end.

(** [v || d] for such a value. *)
Definition or_else (v : option string) (d : string) : string :=
  match v with
  | Some s => if bool_decide (s ≠ "") then s else d
  | None => d
  end.

(** [n.toString()] and the interpolation of an integer in a template. *)
Definition toString (n : Z) : string := pretty n.

(** A string is kept as its text in UTF-8, a surrogate that stands alone as
    the three bytes of its own code point.  [code_units] are the UTF-16 code
    units JavaScript counts and cuts strings by, and [of_code_units] is the
    text of a sequence of code units; a byte that starts no well-formed
    sequence is taken as a code unit itself. *)
Fixpoint code_units (s : string) : list N :=
  match s with
  | EmptyString => []
  | String a0 s1 =>
      let b0 := N_of_ascii a0 in
      if (b0 <? 192)%N then b0 :: code_units s1
      else if (b0 <? 224)%N then
        match s1 with
        | String a1 s2 =>
            ((b0 mod 32) * 64 + N_of_ascii a1 mod 64)%N :: code_units s2
        | EmptyString => [b0]
        end
      else if (b0 <? 240)%N then
        match s1 with
        | String a1 (String a2 s3) =>
            ((b0 mod 16) * 4096 + (N_of_ascii a1 mod 64) * 64
             + N_of_ascii a2 mod 64)%N :: code_units s3
        | _ => b0 :: code_units s1
        end
      else
        match s1 with
        | String a1 (String a2 (String a3 s4)) =>
            let v := ((b0 mod 8) * 262144 + (N_of_ascii a1 mod 64) * 4096
                      + (N_of_ascii a2 mod 64) * 64 + N_of_ascii a3 mod 64
                      - 65536)%N in
            (55296 + v / 1024)%N :: (56320 + v mod 1024)%N :: code_units s4
        | _ => b0 :: code_units s1
        end
  end.

Definition three_bytes (u : N) (s : string) : string :=
  String (ascii_of_N (224 + u / 4096))
    (String (ascii_of_N (128 + (u / 64) mod 64))
       (String (ascii_of_N (128 + u mod 64)) s)).

Definition four_bytes (p : N) (s : string) : string :=
  String (ascii_of_N (240 + p / 262144))
    (String (ascii_of_N (128 + (p / 4096) mod 64))
       (String (ascii_of_N (128 + (p / 64) mod 64))
          (String (ascii_of_N (128 + p mod 64)) s))).

Fixpoint of_code_units (units : list N) : string :=
  match units with
  | [] => EmptyString
  | u :: units1 =>
      if (u <? 128)%N then String (ascii_of_N u) (of_code_units units1)
      else if (u <? 2048)%N then
        String (ascii_of_N (192 + u / 64))
          (String (ascii_of_N (128 + u mod 64)) (of_code_units units1))
      else
        match units1 with
        | u' :: units2 =>
            if ((55296 <=? u) && (u <? 56320) && (56320 <=? u') && (u' <? 57344))%N
            then four_bytes (65536 + (u - 55296) * 1024 + (u' - 56320))
                   (of_code_units units2)
            else three_bytes u (of_code_units units1)
        | [] => three_bytes u EmptyString
        end
  end.

(** [s.substring(0, e)] for a count [e]. *)
Definition substring0 (e : nat) (s : string) : string :=
  of_code_units (take e (code_units s)).

(** The white space and the line terminators [String.prototype.trim] cuts:
    TAB, LF, VT, FF, CR, SP, U+00A0, U+1680, U+2000 to U+200A, U+2028,
    U+2029, U+202F, U+205F, U+3000 and U+FEFF. *)
Definition is_white_space (u : N) : bool :=
  ((9 <=? u) && (u <=? 13) || (u =? 32) || (u =? 160) || (u =? 5760)
   || (8192 <=? u) && (u <=? 8202) || (u =? 8232) || (u =? 8233)
   || (u =? 8239) || (u =? 8287) || (u =? 12288) || (u =? 65279))%N.

(** [s.trim()] is the empty string. *)
Definition trim_is_empty (s : string) : bool :=
  forallb is_white_space (code_units s).

(** [c.toUpperCase()] on one code unit (ASCII letters). *)
Definition toUpperCase (c : ascii) : ascii :=
  let n := Ascii.nat_of_ascii c in
  if bool_decide (97 ≤ n ≤ 122)%nat then Ascii.ascii_of_nat (n - 32) else c.

End Js.


(** ** fabric objects and the canvas *)

Module Fabric.

(** A drawable object, with the properties the store and the canvas
    component read and write (the font properties are those of a text
    object); [rest] stands for everything else fabric keeps on it. *)
Record Object := {
  id : option string;
  type : string;
  text : option string;
  selectable : bool;
  evented : bool;
  visible : bool;
  fontFamily : option string;
  fontSize : option Z;
  fontWeight : option string;
  fontStyle : option string;
  textAlign : option string;
  rest : string;
}.

Global Instance Object_eq_dec : EqDecision Object.
Proof. solve_decision. Defined.

(** The one canvas object of the page: the store keeps a reference to it
    and fabric mutates it in place. *)
Record Canvas := { getObjects : list Object }.

Global Instance Canvas_eq_dec : EqDecision Canvas.
Proof. solve_decision. Defined.

Definition isType (obj : Object) (t : string) : bool := bool_decide (type obj = t).

(** [obj.set({ visible })], [obj.set({ selectable, evented })] and
    [obj.id = ...]. *)
Definition set_visible (v : bool) (obj : Object) : Object :=
  {| id := id obj; type := type obj; text := text obj;
     selectable := selectable obj; evented := evented obj; visible := v;
     fontFamily := fontFamily obj; fontSize := fontSize obj;
     fontWeight := fontWeight obj; fontStyle := fontStyle obj;
     textAlign := textAlign obj; rest := rest obj |}.

Definition set_selectable_evented (sel ev : bool) (obj : Object) : Object :=
  {| id := id obj; type := type obj; text := text obj;
     selectable := sel; evented := ev; visible := visible obj;
     fontFamily := fontFamily obj; fontSize := fontSize obj;
     fontWeight := fontWeight obj; fontStyle := fontStyle obj;
     textAlign := textAlign obj; rest := rest obj |}.

Definition set_id (i : string) (obj : Object) : Object :=
  {| id := Some i; type := type obj; text := text obj;
     selectable := selectable obj; evented := evented obj; visible := visible obj;
     fontFamily := fontFamily obj; fontSize := fontSize obj;
     fontWeight := fontWeight obj; fontStyle := fontStyle obj;
     textAlign := textAlign obj; rest := rest obj |}.

End Fabric.

(** ** Replies of the hosted model *)

Module Genai.

(** Every member the SDK declares optional is an [option] here. *)
Record Image := { imageBytes : option string }.
Record GeneratedImage := { image : option Image }.
Record GenerateImagesResponse := {
  generatedImages : option (list GeneratedImage);
  }.

Record Blob := { data : string; mimeType : string }.
Record Part := { inlineData : option Blob; part_text : option string }.
Record Content := { parts : option (list Part) }.
Record Candidate := { content : option Content }.
Record GenerateContentResponse := {
  candidates : option (list Candidate);
  text : option string;
  }.

End Genai.

(** ** What the platform and the libraries provide

    One member per external call of the source.  [Json] is the type of the
    plain values [canvas.toJSON()] returns and [JSON.parse] produces.  The one
    law is that [JSON.stringify] writes text that [JSON.parse] accepts.
    The messages of the errors the engine itself throws are the engine's:
    [SyntaxError_message v] is the message of the [SyntaxError] of
    [JSON.parse(v)], and [TypeError_message p] the message of the
    [TypeError] of reading the property [p] of [undefined] or [null].

    [canvas.loadFromJSON] has no member: what it does to the canvas, and
    the ['object:removed'] and ['object:added'] events it raises on the way,
    are steps of the page like any other edit (see [Store.steps]). *)

Class Externals := {
  Json : Type;
  JSON_stringify : Json → string;
  JSON_parse : string → option Json;
  JSON_parse_stringify : ∀ j, is_Some (JSON_parse (JSON_stringify j));
  Json_is_null : Json → bool;
  SyntaxError_message : option string → string;
  TypeError_message : string → string;
  toISOString : Z → string;
  toJSON : Fabric.Canvas → Json;
  toDataURL : Fabric.Object → string;
  canvas_toDataURL : Fabric.Canvas → string;
  Image_fromURL : string → Completion Fabric.Object;
  scaleToWidth : Z → Fabric.Object → Fabric.Object;
  centerObject : Fabric.Canvas → Fabric.Object → Fabric.Object;
  generateImages : string → Completion Genai.GenerateImagesResponse;
  generateContent_image : Genai.Blob → string → Completion Genai.GenerateContentResponse;
  generateContent_text : string → Completion Genai.GenerateContentResponse;
}.

(** [JSON.parse(v)] where [v] may be [undefined]: [undefined] is read as the
    text [undefined], which is not JSON, so that call throws as any
    malformed text does. *)
Definition JSON_parse_value `{Externals} (v : option string) : Completion Json :=
  match v ≫= JSON_parse with
  | Some j => Normal j
  | None => Throw (SyntaxError_message v)
  end.

(** ** The store *)

Module Store.

Inductive Tool := select | draw | eraser | text | image | ai | layers_tool.

Global Instance Tool_eq_dec : EqDecision Tool.
Proof. solve_decision. Defined.
Inductive FontWeight := weight_normal | bold.
Inductive FontStyle := style_normal | italic.

Record LayerData := {
  id : option string;
  name : string;
  type : string;
  thumbnail : string;
  locked : bool;
  visible : bool;
}.

(** The data fields of [AppState] ([brushOpacity], a fraction that no
    operation below reads or writes, is left out).  [textAlign] is a string:
    the selection handler stores whatever alignment a text object has. *)
Record AppState := {
  canvas : option Fabric.Canvas;
  history : list string;
  historyIndex : Z;
  selectedTool : Tool;
  selectedStyle : string;
  isLoading : bool;
  loadingMessage : string;
  isSaving : bool;
  selectedColor : string;
  brushSize : Z;
  layers : list LayerData;
  activeObjectIds : list string;
  fontFamily : string;
  fontSize : Z;
  fontWeight : FontWeight;
  fontStyle : FontStyle;
  textAlign : string;
  activeObjectType : option string;
}.

(** [set({ ... })] for the fields the operations below write. *)
Definition set_canvas (c : option Fabric.Canvas) (s : AppState) : AppState :=
  {| canvas := c; history := history s; historyIndex := historyIndex s;
     selectedTool := selectedTool s; selectedStyle := selectedStyle s;
     isLoading := isLoading s; loadingMessage := loadingMessage s;
     isSaving := isSaving s; selectedColor := selectedColor s;
     brushSize := brushSize s; layers := layers s;
     activeObjectIds := activeObjectIds s; fontFamily := fontFamily s;
     fontSize := fontSize s; fontWeight := fontWeight s;
     fontStyle := fontStyle s; textAlign := textAlign s;
     activeObjectType := activeObjectType s |}.

Definition set_history (h : list string) (i : Z) (s : AppState) : AppState :=
  {| canvas := canvas s; history := h; historyIndex := i;
     selectedTool := selectedTool s; selectedStyle := selectedStyle s;
     isLoading := isLoading s; loadingMessage := loadingMessage s;
     isSaving := isSaving s; selectedColor := selectedColor s;
     brushSize := brushSize s; layers := layers s;
     activeObjectIds := activeObjectIds s; fontFamily := fontFamily s;
     fontSize := fontSize s; fontWeight := fontWeight s;
     fontStyle := fontStyle s; textAlign := textAlign s;
     activeObjectType := activeObjectType s |}.

Definition set_historyIndex (i : Z) (s : AppState) : AppState :=
  set_history (history s) i s.

Definition set_layers (l : list LayerData) (s : AppState) : AppState :=
  {| canvas := canvas s; history := history s; historyIndex := historyIndex s;
     selectedTool := selectedTool s; selectedStyle := selectedStyle s;
     isLoading := isLoading s; loadingMessage := loadingMessage s;
     isSaving := isSaving s; selectedColor := selectedColor s;
     brushSize := brushSize s; layers := l;
     activeObjectIds := activeObjectIds s; fontFamily := fontFamily s;
     fontSize := fontSize s; fontWeight := fontWeight s;
     fontStyle := fontStyle s; textAlign := textAlign s;
     activeObjectType := activeObjectType s |}.

Definition initial : AppState :=
  {| canvas := None; history := []; historyIndex := -1;
     selectedTool := ai; selectedStyle := "Traditional";
     isLoading := false; loadingMessage := "AI is thinking...";
     isSaving := false; selectedColor := "#000000";
     brushSize := 5; layers := [];
     activeObjectIds := []; fontFamily := "Inter";
     fontSize := 28; fontWeight := weight_normal;
     fontStyle := style_normal; textAlign := "left";
     activeObjectType := None |}.

Definition setCanvas (c : Fabric.Canvas) (s : AppState) : AppState :=
  set_canvas (Some c) s.

Definition setTool (tool : Tool) (s : AppState) : AppState :=
  {| canvas := canvas s; history := history s; historyIndex := historyIndex s;
     selectedTool := tool; selectedStyle := selectedStyle s;
     isLoading := isLoading s; loadingMessage := loadingMessage s;
     isSaving := isSaving s; selectedColor := selectedColor s;
     brushSize := brushSize s; layers := layers s;
     activeObjectIds := activeObjectIds s; fontFamily := fontFamily s;
     fontSize := fontSize s; fontWeight := fontWeight s;
     fontStyle := fontStyle s; textAlign := textAlign s;
     activeObjectType := activeObjectType s |}.

Definition setLoading (loading : bool) (message : string) (s : AppState) : AppState :=
  {| canvas := canvas s; history := history s; historyIndex := historyIndex s;
     selectedTool := selectedTool s; selectedStyle := selectedStyle s;
     isLoading := loading; loadingMessage := message;
     isSaving := isSaving s; selectedColor := selectedColor s;
     brushSize := brushSize s; layers := layers s;
     activeObjectIds := activeObjectIds s; fontFamily := fontFamily s;
     fontSize := fontSize s; fontWeight := fontWeight s;
     fontStyle := fontStyle s; textAlign := textAlign s;
     activeObjectType := activeObjectType s |}.

Definition setActiveObjectIds (ids : list string) (s : AppState) : AppState :=
  {| canvas := canvas s; history := history s; historyIndex := historyIndex s;
     selectedTool := selectedTool s; selectedStyle := selectedStyle s;
     isLoading := isLoading s; loadingMessage := loadingMessage s;
     isSaving := isSaving s; selectedColor := selectedColor s;
     brushSize := brushSize s; layers := layers s;
     activeObjectIds := ids; fontFamily := fontFamily s;
     fontSize := fontSize s; fontWeight := fontWeight s;
     fontStyle := fontStyle s; textAlign := textAlign s;
     activeObjectType := activeObjectType s |}.

Definition setActiveObjectType (t : option string) (s : AppState) : AppState :=
  {| canvas := canvas s; history := history s; historyIndex := historyIndex s;
     selectedTool := selectedTool s; selectedStyle := selectedStyle s;
     isLoading := isLoading s; loadingMessage := loadingMessage s;
     isSaving := isSaving s; selectedColor := selectedColor s;
     brushSize := brushSize s; layers := layers s;
     activeObjectIds := activeObjectIds s; fontFamily := fontFamily s;
     fontSize := fontSize s; fontWeight := fontWeight s;
     fontStyle := fontStyle s; textAlign := textAlign s;
     activeObjectType := t |}.

(** [setFontFamily], [setFontSize], [setFontWeight], [setFontStyle] and
    [setTextAlign], one after the other. *)
Definition setFont (family : string) (size : Z) (weight : FontWeight)
    (style : FontStyle) (align : string) (s : AppState) : AppState :=
  {| canvas := canvas s; history := history s; historyIndex := historyIndex s;
     selectedTool := selectedTool s; selectedStyle := selectedStyle s;
     isLoading := isLoading s; loadingMessage := loadingMessage s;
     isSaving := isSaving s; selectedColor := selectedColor s;
     brushSize := brushSize s; layers := layers s;
     activeObjectIds := activeObjectIds s; fontFamily := family;
     fontSize := size; fontWeight := weight;
     fontStyle := style; textAlign := align;
     activeObjectType := activeObjectType s |}.

Definition clearHistory (s : AppState) : AppState := set_history [] (-1) s.

(** The id [groupSelection] gives the group fabric has made of the active
    selection: [`fabric_${Date.now()}`], with the clock reading [now]. *)
Definition groupSelection_id (now : Z) : string := "fabric_" +:+ Js.toString now.

Section WithExternals.
Context `{Externals}.

(** [JSON.stringify(canvas.toJSON())] *)
Definition snapshot (c : Fabric.Canvas) : string := JSON_stringify (toJSON c).

Definition addToHistory (s : AppState) : AppState :=
  match canvas s with
  | None => s
  | Some c =>
      let state := snapshot c in
      if decide (Js.index (history s) (historyIndex s) = Some state) then s
      else
        let newHistory := Js.slice0 (history s) (historyIndex s + 1) in
        let newHistory := Js.push newHistory state in
        let newHistory :=
          if decide (CONFIG.CANVAS.MAX_HISTORY < Js.length newHistory)%Z
          then Js.shift newHistory else newHistory in
        set_history newHistory (Js.length newHistory - 1) s
  end.

Definition getObjectName (obj : Fabric.Object) : string :=
  if Fabric.isType obj "i-text" && Js.truthy (Fabric.text obj) then
    Js.or_else (Js.substring0 20 <$> Fabric.text obj) "Text"
  else
    match Fabric.type obj with
    | String c rest => String (Js.toUpperCase c) rest
    | EmptyString => "Object"
    end.

Definition layerOf (obj : Fabric.Object) : LayerData :=
  {| id := Fabric.id obj;
     name := getObjectName obj;
     type := Fabric.type obj;
     thumbnail := toDataURL obj;
     locked := negb (Fabric.selectable obj);
     visible := Fabric.visible obj || false |}.

Definition deriveLayers (c : Fabric.Canvas) : list LayerData :=
  filter (λ layer, Js.truthy (id layer)) (layerOf <$> Fabric.getObjects c).

Definition updateLayers (s : AppState) : AppState :=
  match canvas s with
  | None => s
  | Some c => set_layers (deriveLayers c) s
  end.

(** [undo] and [redo] are [async]: they read the store, hand a snapshot to
    [canvas.loadFromJSON], and wait for its callback; when that comes they
    derive the layers and write [historyIndex].

    [undo_begin] is the part before the wait.  It gives [None] when the
    guard fails (nothing is loaded, nothing will be written), and otherwise
    the index the second part will write together with the snapshot handed
    to fabric; a [Throw] is [JSON.parse] failing, which rejects the promise
    with nothing loaded or written. *)
Definition undo_begin (s : AppState) : Completion (option (Z * Json)) :=
  match canvas s with
  | Some c =>
      if decide (0 < historyIndex s)%Z then
        let newIndex := (historyIndex s - 1)%Z in
        j ← JSON_parse_value (Js.index (history s) newIndex);
        Normal (Some (newIndex, j))
      else Normal None
  | None => Normal None
  end.

Definition redo_begin (s : AppState) : Completion (option (Z * Json)) :=
  match canvas s with
  | Some c =>
      if decide (historyIndex s < Js.length (history s) - 1)%Z then
        let newIndex := (historyIndex s + 1)%Z in
        j ← JSON_parse_value (Js.index (history s) newIndex);
        Normal (Some (newIndex, j))
      else Normal None
  | None => Normal None
  end.

(** The part after the wait, [get().updateLayers(); set({ historyIndex:
    newIndex })], run on the store as it is when the callback comes: the
    index written is the one computed before the wait.  If the callback
    never comes, this part never runs. *)
Definition undo_end (newIndex : Z) (s : AppState) : AppState :=
  set_historyIndex newIndex (updateLayers s).

Definition redo_end (newIndex : Z) (s : AppState) : AppState :=
  set_historyIndex newIndex (updateLayers s).

(** [canvas.getObjects().find(o => o.id === id)], with the position of the
    object found: [obj.set] then writes to that very object of the canvas. *)
Definition find_by_id (id : string) (objs : list Fabric.Object)
  : option (nat * Fabric.Object) :=
  list_find (λ o, Fabric.id o = Some id) objs.

Definition toggleLayerLock (id : string) (s : AppState) : AppState :=
  match canvas s with
  | None => s
  | Some c =>
      match find_by_id id (Fabric.getObjects c) with
      | Some (i, obj) =>
          let obj' := Fabric.set_selectable_evented
                        (negb (Fabric.selectable obj)) (negb (Fabric.evented obj)) obj in
          let c' := {| Fabric.getObjects := <[i := obj']> (Fabric.getObjects c) |} in
          updateLayers (addToHistory (set_canvas (Some c') s))
      | None => s
      end
  end.

Definition toggleLayerVisibility (id : string) (s : AppState) : AppState :=
  match canvas s with
  | None => s
  | Some c =>
      match find_by_id id (Fabric.getObjects c) with
      | Some (i, obj) =>
          let obj' := Fabric.set_visible (negb (Fabric.visible obj)) obj in
          let c' := {| Fabric.getObjects := <[i := obj']> (Fabric.getObjects c) |} in
          updateLayers (addToHistory (set_canvas (Some c') s))
      | None => s
      end
  end.

(** The array [addToHistory] writes when it records [state]: the entries up
    to the current one, then [state], without the oldest entry when that
    makes more than [MAX_HISTORY]. *)
Definition pushed (s : AppState) (state : string) : list string :=
  let kept := Js.slice0 (history s) (historyIndex s + 1) in
  if decide (CONFIG.CANVAS.MAX_HISTORY < Js.length (kept ++ [state]))%Z
  then drop 1 (kept ++ [state]) else kept ++ [state].

(** A run of [addToHistory] calls: before each call the canvas is whatever
    the edits so far have made of it ([None] while no canvas is set). *)
Definition addToHistory_calls (edits : list (option Fabric.Canvas)) (s : AppState)
  : AppState :=
  foldl (λ s c, addToHistory (set_canvas c s)) s edits.

(** The invariant of the history fields. *)
Definition history_inv (s : AppState) : Prop :=
  (-1 ≤ historyIndex s ≤ Js.length (history s) - 1)%Z
  ∧ (historyIndex s = (-1)%Z ↔ history s = []).

Definition history_capped (s : AppState) : Prop :=
  (Js.length (history s) ≤ CONFIG.CANVAS.MAX_HISTORY)%Z.

(** Every snapshot kept is text [JSON.parse] accepts. *)
Definition history_parses (s : AppState) : Prop :=
  Forall (λ e, is_Some (JSON_parse e)) (history s).

(** The runs of the store.  [steps s0 s]: the operations can take the store
    from [s0] to [s].  [steps_canvas] is [setCanvas] and any change fabric
    makes to the canvas in place, a load included; [steps_fields] is any
    write to the other fields (the plain setters, [updateLayers], the layer
    toggles' own writes); the handlers fabric calls on its events are
    [addToHistory] followed by [updateLayers].  An [undo] that began in one
    store ends in whatever store the steps in between have led to, and
    writes there the index it computed at its beginning; so does a [redo]. *)
Inductive steps : AppState → AppState → Prop :=
  | steps_refl s : steps s s
  | steps_canvas s0 s c : steps s0 s → steps s0 (set_canvas c s)
  | steps_fields s0 s s' :
      steps s0 s → canvas s' = canvas s → history s' = history s →
      historyIndex s' = historyIndex s → steps s0 s'
  | steps_addToHistory s0 s : steps s0 s → steps s0 (addToHistory s)
  | steps_clearHistory s0 s : steps s0 s → steps s0 (clearHistory s)
  | steps_undo s0 s s' newIndex j :
      steps s0 s → undo_begin s = Normal (Some (newIndex, j)) →
      steps s s' → steps s0 (undo_end newIndex s')
  | steps_redo s0 s s' newIndex j :
      steps s0 s → redo_begin s = Normal (Some (newIndex, j)) →
      steps s s' → steps s0 (redo_end newIndex s').

(** The states of the store: those a run from the initial one leads to. *)
Definition reachable (s : AppState) : Prop := steps initial s.

(** Position, in the derived layer list, of the layer of the object at
    position [i] of the canvas: objects without an id have no layer. *)
Definition layer_position (c : Fabric.Canvas) (i : nat) : nat :=
  List.length (deriveLayers {| Fabric.getObjects := take i (Fabric.getObjects c) |}).

End WithExternals.

End Store.

(** ** The canvas component: identifiers and the change handlers *)

Module TattooCanvas.
Import Store.

(** [`fabric_${Date.now()}`], with the clock reading [now]. *)
Definition fabric_id (now : Z) : string := "fabric_" +:+ Js.toString now.

(** The first statement of the ['object:added'] handler:
    [e.target.id = e.target.id || `fabric_${Date.now()}`]. *)
Definition object_added_id (now : Z) (target : Fabric.Object) : Fabric.Object :=
  Fabric.set_id (Js.or_else (Fabric.id target) (fabric_id now)) target.

(** [handleSelection], with [activeObjects] what
    [fabricCanvas.getActiveObjects()] returns when the event is raised. *)
Definition handleSelection (activeObjects : list Fabric.Object) (s : AppState)
  : AppState :=
  let ids := (λ obj, Js.or_else (Fabric.id obj) EmptyString) <$> activeObjects in
  let s := setActiveObjectIds (filter (λ i, i ≠ EmptyString) ids) s in
  match activeObjects with
  | [activeObject] =>
      let s := setActiveObjectType
                 (if Js.truthy (Some (Fabric.type activeObject))
                  then Some (Fabric.type activeObject) else None) s in
      if Fabric.isType activeObject "i-text" then
        setFont (Js.or_else (Fabric.fontFamily activeObject) "Inter")
          (match Fabric.fontSize activeObject with
           | Some n => if decide (n = 0%Z) then 28%Z else n
           | None => 28%Z
           end)
          (if decide (Fabric.fontWeight activeObject = Some "bold")
           then bold else weight_normal)
          (if decide (Fabric.fontStyle activeObject = Some "italic")
           then italic else style_normal)
          (Js.or_else (Fabric.textAlign activeObject) "left") s
      else s
  | _ :: _ :: _ => setActiveObjectType (Some "activeSelection") s
  | [] => setActiveObjectType None s
  end.

Section WithExternals.
Context `{Externals}.

Definition handleModified (s : AppState) : AppState :=
  updateLayers (addToHistory s).

(** [canvas.add(obj)]: fabric appends the object and raises ['object:added'],
    whose handler names the object and records the change. *)
Definition canvas_add (now : Z) (obj : Fabric.Object) (s : AppState) : AppState :=
  match canvas s with
  | None => s
  | Some c =>
      let target := object_added_id now obj in
      let c' := {| Fabric.getObjects := Fabric.getObjects c ++ [target] |} in
      handleModified (set_canvas (Some c') s)
  end.

End WithExternals.
End TattooCanvas.

(** ** The designs database *)

Module DesignDraft.
(** [Omit<InkGeniusDB['designs']['value'], 'id' | 'timestamp'>] *)
Record t := {
  canvas : string;
  thumbnail : string;
  name : string;
  style : string;
}.
Global Instance eq_dec : EqDecision t.
Proof. solve_decision. Defined.
End DesignDraft.

Module Design.
Record value := {
  id : string;
  canvas : string;
  thumbnail : string;
  name : string;
  style : string;
  timestamp : string;
}.
Global Instance eq_dec : EqDecision value.
Proof. solve_decision. Defined.
End Design.

Module DatabaseService.

(** The object store ['designs'] with [keyPath: 'id']: one record per key.
    [put] replaces the record under a key already there. *)
Abbreviation designs := (gmap string Design.value).

(** Order of the ['timestamp'] index: by index key, records with equal index
    keys by primary key; strings compare code unit by code unit. *)
Definition index_le (a b : Design.value) : Prop :=
  if decide (Design.timestamp a = Design.timestamp b)
  then String.le (Design.id a) (Design.id b)
  else String.le (Design.timestamp a) (Design.timestamp b).

Global Instance index_le_dec : RelDecision index_le.
Proof. intros a b. unfold index_le. case_decide; apply _. Defined.

Global Instance index_le_total : Total index_le.
Proof.
  intros a b. unfold index_le.
  do 2 case_decide; try congruence; apply (total String.le).
Qed.

(** Order of the timestamps recorded at save. *)
Definition timestamp_le (a b : Design.value) : Prop :=
  String.le (Design.timestamp a) (Design.timestamp b).

Global Instance timestamp_le_trans : Transitive timestamp_le.
Proof. intros a b c. unfold timestamp_le. apply transitivity. Qed.

Section WithExternals.
Context `{Externals}.

(** [now] is what [Date.now()] returns and [now'] the instant [new Date()]
    takes, two readings of the clock. *)
Definition saveDesign (now now' : Z) (design : DesignDraft.t) (db : designs)
  : string * designs :=
  let id := Js.toString now in
  let designData :=
    {| Design.id := id;
       Design.canvas := DesignDraft.canvas design;
       Design.thumbnail := DesignDraft.thumbnail design;
       Design.name := DesignDraft.name design;
       Design.style := DesignDraft.style design;
       Design.timestamp := toISOString now' |} in
  (id, <[id := designData]> db).

End WithExternals.

Definition loadDesign (id : string) (db : designs) : option Design.value :=
  db !! id.

Definition getAllDesigns (db : designs) : list Design.value :=
  merge_sort index_le (snd <$> map_to_list db).

Definition deleteDesign (id : string) (db : designs) : designs :=
  delete id db.

End DatabaseService.

(** ** The AI service *)

Module TattooAIService.

(** The service object; [apiKey] is what its client was built with. *)
Record t := { apiKey : string }.

Definition constructor (apiKey : string) : Completion t :=
  if decide (apiKey = "") then
    Throw "API_KEY is not set. Please set it in your environment variables."
  else Normal {| apiKey := apiKey |}.

(** [export const aiService = new TattooAIService(process.env.API_KEY || '')],
    evaluated when the module is loaded. *)
Definition aiService (API_KEY : option string) : Completion t :=
  constructor (Js.or_else API_KEY "").

Definition dquote : string := String "034"%char EmptyString.

Definition enhancedPrompt (prompt style : string) : string :=
  "A high-quality, professional tattoo design in a " +:+ style +:+
  " style. The subject is: " +:+ dquote +:+ prompt +:+ dquote +:+
  ". The design should have clean, bold lines suitable for a stencil, with appropriate shading for the specified style. The background should be solid white.".

Definition stencilPrompt : string :=
  "Convert this image to a clean, black and white tattoo stencil. Remove all colors and shading, keeping only the essential black outlines. The lines must be bold and clear, suitable for transferring onto skin. The output must be an image.".

Definition placementPrompt (designDescription bodyPart : string) : string :=
  "For a tattoo described as " +:+ dquote +:+ designDescription +:+ dquote +:+
  " to be placed on the " +:+ bodyPart +:+ ", provide expert advice.".

Section WithExternals.
Context `{Externals}.

Definition generateDesign (this : t) (prompt style : string) : Completion string :=
  response ← generateImages (enhancedPrompt prompt style);
  match Genai.generatedImages response with
  | Some (first :: _) =>
      match Genai.image first with
      | Some image =>
          let base64ImageBytes := Genai.imageBytes image in
          Normal ("data:image/png;base64," +:+ default "undefined" base64ImageBytes)
      | None => Throw (TypeError_message "imageBytes")
      end
  | Some [] | None => Throw "AI failed to generate a design."
  end.

Definition convertToStencil (this : t) (imageData : Genai.Blob) : Completion string :=
  response ← generateContent_image imageData stencilPrompt;
  let imagePart :=
    candidate ← Genai.candidates response ≫= head;
    content ← Genai.content candidate;
    parts ← Genai.parts content;
    snd <$> list_find (λ part, is_Some (Genai.inlineData part)) parts in
  match imagePart ≫= Genai.inlineData with
  | Some inlineData =>
      Normal ("data:" +:+ Genai.mimeType inlineData +:+ ";base64," +:+ Genai.data inlineData)
  | None =>
      Throw "Failed to convert image to stencil. The model did not return an image."
  end.

Definition suggestPlacement (this : t) (designDescription bodyPart : string)
  : Completion Json :=
  response ← generateContent_text (placementPrompt designDescription bodyPart);
  JSON_parse_value (Genai.text response).

End WithExternals.
End TattooAIService.

(** ** The AI tools of the sidebar *)

Module AIToolsPanel.
Import Store.

(** [dataUrl.split(',')] *)
Fixpoint split_comma (s : string) : list string :=
  match s with
  | EmptyString => [EmptyString]
  | String c s' =>
      if decide (c = ","%char) then EmptyString :: split_comma s'
      else match split_comma s' with
           | w :: ws => String c w :: ws
           | [] => [String c EmptyString]
           end
  end.

(** The line terminators, which the [.] of a regular expression passes
    over: LF, CR, U+2028 and U+2029. *)
Definition is_line_terminator (u : N) : bool :=
  ((u =? 10) || (u =? 13) || (u =? 8232) || (u =? 8233))%N.

(** The lazy [(.*?);] read from the start of the code units [units]. *)
Fixpoint until_semicolon (units : list N) : option (list N) :=
  match units with
  | [] => None
  | u :: units' =>
      if (u =? 59)%N then Some []
      else if is_line_terminator u then None
      else (u ::.) <$> until_semicolon units'
  end.

(** The group of the leftmost match of [/:(.*?);/]. *)
Fixpoint match_colon_semicolon (units : list N) : option (list N) :=
  match units with
  | [] => None
  | u :: units' =>
      if (u =? 58)%N then
        match until_semicolon units' with
        | Some m => Some m
        | None => match_colon_semicolon units'
        end
      else match_colon_semicolon units'
  end.

(** [header.match(/:(.*?);/)?.[1]] *)
Definition match_mimeType (header : string) : option string :=
  Js.of_code_units <$> match_colon_semicolon (Js.code_units header).

Section WithExternals.
Context `{Externals}.

(** What the modal shows. *)
Inductive ModalBody :=
| ErrorMessage (message : string)
| StencilReady (stencilUrl : string)
| PlacementAdvice (suggestions : Json)
| InputRequired.

Record Modal := { title : string; content : ModalBody }.

(** The state of one mounted [AIToolsPanel]: its two [useState] cells. *)
Record Panel := {
  prompt : string;
  modalContent : option Modal;
}.

(** The page at one instant: the store, the number of [AIToolsPanel]s the
    sidebar has mounted so far, and the state of the one mounted now, if
    any.  The sidebar renders the panel only while [selectedTool] is
    ['ai']; a panel that is unmounted loses its state, the next one starts
    afresh, and the setters of an unmounted panel write nowhere. *)
Record Screen := {
  store : AppState;
  mounts : nat;
  aiTools : option Panel;
}.

(** A click on a button of the tools panel, [setTool(tool.id)], and the
    render of the sidebar that follows. *)
Definition selectTool (tool : Tool) (v : Screen) : Screen :=
  let s := setTool tool (store v) in
  if decide (tool = ai) then
    match aiTools v with
    | Some p => {| store := s; mounts := mounts v; aiTools := Some p |}
    | None =>
        {| store := s; mounts := S (mounts v);
           aiTools := Some {| prompt := EmptyString; modalContent := None |} |}
    end
  else {| store := s; mounts := mounts v; aiTools := None |}.

(** [setModalContent(m)] called by a handler of the panel that was mounted
    as number [mine]. *)
Definition setModalContent (mine : nat) (m : option Modal) (v : Screen) : Screen :=
  match aiTools v with
  | Some p =>
      if decide (mounts v = mine) then
        {| store := store v; mounts := mounts v;
           aiTools := Some {| prompt := prompt p; modalContent := m |} |}
      else v
  | None => v
  end.

(** A store action called by a handler: it writes the store of the page,
    mounted panel or not. *)
Definition on_store (f : AppState → AppState) (v : Screen) : Screen :=
  {| store := f (store v); mounts := mounts v; aiTools := aiTools v |}.

Definition errorModal (message : string) : option Modal :=
  Some {| title := "Error"; content := ErrorMessage message |}.

(** The [catch] block followed by the [finally] block, and the [finally]
    block alone. *)
Definition catch_finally (mine : nat) (message : string) (v : Screen) : Screen :=
  on_store (setLoading false "AI is thinking...")
    (setModalContent mine (errorModal message) v).

Definition finally (v : Screen) : Screen :=
  on_store (setLoading false "AI is thinking...") v.

(** A handler that waits: the panel it belongs to, and the promise it
    awaits, given by the way that promise settles. *)
Inductive Waiting :=
| design_awaited (mine : nat) (outcome : Completion string)
| image_awaited (mine : nat) (outcome : Completion Fabric.Object)
| stencil_awaited (mine : nat) (outcome : Completion string)
| placement_awaited (mine : nat) (outcome : Completion Json).

(** The statements of [generateDesign] after its second [await], on the
    store as it is then; [now] is the clock reading in the ['object:added']
    handler.  The handler started with a canvas, and no operation takes the
    canvas out of the store. *)
Definition addImage (now : Z) (img : Fabric.Object) (s : AppState) : AppState :=
  match canvas s with
  | None => s
  | Some c =>
      let img := scaleToWidth (CONFIG.CANVAS.WIDTH / 2) img in
      let s := TattooCanvas.canvas_add now img s in
      let target := TattooCanvas.object_added_id now img in
      let c1 := {| Fabric.getObjects := Fabric.getObjects c ++ [target] |} in
      let centred := centerObject c1 target in
      let c2 := {| Fabric.getObjects := Fabric.getObjects c ++ [centred] |} in
      let s := set_canvas (Some c2) s in
      let s := TattooCanvas.handleSelection [centred] s in
      addToHistory s
  end.

(** The first statements of the stencil handler's [try] block: the
    canvas image split into its media type and its base64 data. *)
Definition canvasImageData (c : Fabric.Canvas) : Completion Genai.Blob :=
  let dataUrl := canvas_toDataURL c in
  let header := default EmptyString (split_comma dataUrl !! 0%nat) in
  let base64Data := split_comma dataUrl !! 1%nat in
  let mimeType := match_mimeType header in
  if negb (Js.truthy base64Data) || negb (Js.truthy mimeType) then
    Throw "Invalid canvas data."
  else
    Normal {| Genai.data := default EmptyString base64Data;
              Genai.mimeType := default EmptyString mimeType |}.

(** The three handlers, from the click up to their first [await].  [mine]
    is the number of the panel whose button is clicked: the panel mounted
    on the page of the click.  The result is the page the handler leaves
    and, if it goes on, what it waits for. *)
Definition generateDesign (aiService : TattooAIService.t) (v : Screen)
  : Screen * option Waiting :=
  match aiTools v, canvas (store v) with
  | Some p, Some c =>
      if Js.trim_is_empty (prompt p) then (v, None)
      else
        (on_store (setLoading true "Generating AI design...") v,
         Some (design_awaited (mounts v)
                 (TattooAIService.generateDesign aiService (prompt p)
                    (selectedStyle (store v)))))
  | _, _ => (v, None)
  end.

Definition convertToStencil (aiService : TattooAIService.t) (v : Screen)
  : Screen * option Waiting :=
  match aiTools v, canvas (store v) with
  | Some p, Some c =>
      let v1 := on_store (setLoading true "Converting to stencil...") v in
      match canvasImageData c with
      | Throw message => (catch_finally (mounts v) message v1, None)
      | Normal imageData =>
          (v1, Some (stencil_awaited (mounts v)
                       (TattooAIService.convertToStencil aiService imageData)))
      end
  | _, _ => (v, None)
  end.

Definition suggestPlacement (aiService : TattooAIService.t) (v : Screen)
  : Screen * option Waiting :=
  match aiTools v with
  | Some p =>
      if Js.trim_is_empty (prompt p) then
        (setModalContent (mounts v)
           (Some {| title := "Input Required"; content := InputRequired |}) v,
         None)
      else
        (on_store (setLoading true "Getting placement advice...") v,
         Some (placement_awaited (mounts v)
                 (TattooAIService.suggestPlacement aiService (prompt p) "Arm")))
  | None => (v, None)
  end.

(** A waiting handler goes on when its promise has settled, on the page [v]
    as it is by then. *)
Definition resume (now : Z) (w : Waiting) (v : Screen) : Screen * option Waiting :=
  match w with
  | design_awaited mine (Throw message) => (catch_finally mine message v, None)
  | design_awaited mine (Normal imageUrl) =>
      (v, Some (image_awaited mine (Image_fromURL imageUrl)))
  | image_awaited mine (Throw message) => (catch_finally mine message v, None)
  | image_awaited mine (Normal img) => (finally (on_store (addImage now img) v), None)
  | stencil_awaited mine (Throw message) => (catch_finally mine message v, None)
  | stencil_awaited mine (Normal stencilUrl) =>
      (finally (setModalContent mine
                  (Some {| title := "Stencil Ready!";
                           content := StencilReady stencilUrl |}) v), None)
  | placement_awaited mine (Throw message) => (catch_finally mine message v, None)
  | placement_awaited mine (Normal suggestions) =>
      if Json_is_null suggestions then
        (catch_finally mine (TypeError_message "size") v, None)
      else
        (finally (setModalContent mine
                    (Some {| title := "Placement Advice for Arm";
                             content := PlacementAdvice suggestions |}) v), None)
  end.

(** What a failure with [message] that reaches the [catch] block of a
    handler of panel [mine] makes of the page [v]: the result [r] has the
    loading flag cleared; the panel, if it is still the one mounted, shows
    the error and keeps its prompt; and if that panel is gone, nothing is
    shown anywhere: the panel state of the page is as it was. *)
Definition failure_handled (mine : nat) (message : string) (v r : Screen) : Prop :=
  isLoading (store r) = false
  ∧ mounts r = mounts v
  ∧ (∀ p, aiTools v = Some p → mounts v = mine →
       aiTools r = Some {| prompt := prompt p; modalContent := errorModal message |})
  ∧ (aiTools v = None ∨ mounts v ≠ mine → aiTools r = aiTools v).

(** The page: the sidebar imports [aiService] from the services module, so
    the panel exists only if evaluating that module did not throw. *)
Inductive Page :=
| Uncaught (message : string)
| Mounted (aiService : TattooAIService.t).

Definition load (API_KEY : option string) : Page :=
  match TattooAIService.aiService API_KEY with
  | Normal svc => Mounted svc
  | Throw message => Uncaught message
  end.

End WithExternals.
End AIToolsPanel.

(** ** A small instance of the externals, to run the model on

    A toy fabric whose snapshot of a canvas is the list of the visibility
    flags of its objects, written as a text of 0s and 1s.  The engine's
    messages are worded as V8 words the two the runs below meet:
    [JSON.parse(undefined)] and a read of a property of [undefined]. *)

Module Demo.
Import Store.

Fixpoint stringify (flags : list bool) : string :=
  match flags with
  | [] => EmptyString
  | b :: flags' => String (if b then "1"%char else "0"%char) (stringify flags')
  end.

Fixpoint parse (s : string) : option (list bool) :=
  match s with
  | EmptyString => Some []
  | String c s' =>
      b ← (if decide (c = "1"%char) then Some true
           else if decide (c = "0"%char) then Some false else None);
      flags ← parse s';
      Some (b :: flags)
  end.

Definition parse_stringify (flags : list bool) : is_Some (parse (stringify flags)).
Proof.
  induction flags as [|b flags [x IH]]; simpl; [by eexists|].
  destruct b; simpl; rewrite IH; by eexists.
Qed.

Definition syntaxError (v : option string) : string :=
  TattooAIService.dquote +:+ default "undefined" v +:+ TattooAIService.dquote
  +:+ " is not valid JSON".

Definition typeError (property : string) : string :=
  "Cannot read properties of undefined (reading '" +:+ property +:+ "')".

Definition newImage (url : string) : Completion Fabric.Object :=
  if decide (url = EmptyString) then Throw "Error loading image"
  else Normal {| Fabric.id := None; Fabric.type := "image"; Fabric.text := None;
                 Fabric.selectable := true; Fabric.evented := true;
                 Fabric.visible := true;
                 Fabric.fontFamily := None; Fabric.fontSize := None;
                 Fabric.fontWeight := None; Fabric.fontStyle := None;
                 Fabric.textAlign := None; Fabric.rest := url |}.

(** The externals, given what the hosted model answers. *)
Definition externals (images : Completion Genai.GenerateImagesResponse)
    (reply : Completion Genai.GenerateContentResponse) : Externals :=
  {| Json := list bool;
     JSON_stringify := stringify;
     JSON_parse := parse;
     JSON_parse_stringify := parse_stringify;
     Json_is_null := λ j, false;
     SyntaxError_message := syntaxError;
     TypeError_message := typeError;
     toISOString := λ now, "T" +:+ Js.toString now;
     toJSON := λ c, Fabric.visible <$> Fabric.getObjects c;
     toDataURL := λ obj, "data:image/png;base64," +:+ Fabric.rest obj;
     canvas_toDataURL := λ c, "data:image/png;base64,iVBORw0KGgo=";
     Image_fromURL := newImage;
     scaleToWidth := λ w obj, obj;
     centerObject := λ c obj, obj;
     generateImages := λ prompt, images;
     generateContent_image := λ blob prompt, reply;
     generateContent_text := λ prompt, reply |}.

Definition oneImage : Genai.GenerateImagesResponse :=
  {| Genai.generatedImages :=
       Some [ {| Genai.image := Some {| Genai.imageBytes := Some "iVBORw0KGgo=" |} |} ] |}.

Definition noImage : Genai.GenerateImagesResponse :=
  {| Genai.generatedImages := Some [] |}.

(** One entry, whose image was withheld: [{ raiFilteredReason: ... }]. *)
Definition filteredImage : Genai.GenerateImagesResponse :=
  {| Genai.generatedImages := Some [ {| Genai.image := None |} ] |}.

(** One entry, with an image that has no bytes: [{ image: {} }]. *)
Definition emptyImage : Genai.GenerateImagesResponse :=
  {| Genai.generatedImages :=
       Some [ {| Genai.image := Some {| Genai.imageBytes := None |} |} ] |}.

Definition noContent : Genai.GenerateContentResponse :=
  {| Genai.candidates := None; Genai.text := None |}.

(** The model answers with one image. *)
Definition online : Externals := externals (Normal oneImage) (Normal noContent).

(** The model answers with no image. *)
Definition silent : Externals := externals (Normal noImage) (Normal noContent).

(** The model answers with an entry whose image was withheld, and with an
    image without bytes. *)
Definition filtered : Externals := externals (Normal filteredImage) (Normal noContent).
Definition hollow : Externals := externals (Normal emptyImage) (Normal noContent).

Definition path (id : option string) (visible : bool) : Fabric.Object :=
  {| Fabric.id := id; Fabric.type := "path"; Fabric.text := None;
     Fabric.selectable := true; Fabric.evented := true;
     Fabric.visible := visible;
     Fabric.fontFamily := None; Fabric.fontSize := None;
     Fabric.fontWeight := None; Fabric.fontStyle := None;
     Fabric.textAlign := None; Fabric.rest := "M 0 0 L 10 10" |}.

Definition blank : Fabric.Canvas := {| Fabric.getObjects := [] |}.

Definition sketch : Fabric.Canvas :=
  {| Fabric.getObjects := [path (Some "fabric_1700000000000") true;
                           path (Some "fabric_1700000000950") true] |}.

(** Two strokes that reached the canvas within the same millisecond. *)
Definition twins : Fabric.Canvas :=
  {| Fabric.getObjects :=
       [TattooCanvas.object_added_id 1700000000000 (path None true);
        TattooCanvas.object_added_id 1700000000000 (path None true)] |}.

(** The store once the canvas component has mounted on a blank canvas. *)
Definition opened : AppState :=
  updateLayers (H := online) (addToHistory (H := online) (setCanvas blank initial)).

(** The store after two strokes were drawn and recorded. *)
Definition drawn : AppState :=
  TattooCanvas.handleModified (H := online) (set_canvas (Some sketch) opened).

(** The store after a first stroke was drawn and recorded, and after a
    second one was. *)
Definition stroke : Fabric.Canvas :=
  {| Fabric.getObjects := [path (Some "fabric_1700000000000") true] |}.

Definition first : AppState :=
  TattooCanvas.handleModified (H := online) (set_canvas (Some stroke) opened).

Definition second : AppState :=
  TattooCanvas.handleModified (H := online) (set_canvas (Some sketch) first).

(** The page with the AI panel mounted over the store after two strokes,
    [a rose] typed as the prompt. *)
Definition asking : AIToolsPanel.Screen (H := silent) :=
  {| AIToolsPanel.store := drawn; AIToolsPanel.mounts := 1;
     AIToolsPanel.aiTools :=
       Some {| AIToolsPanel.prompt := "a rose"; AIToolsPanel.modalContent := None |} |}.

Definition draft (canvas : string) : DesignDraft.t :=
  {| DesignDraft.canvas := canvas; DesignDraft.thumbnail := "data:image/png;base64,AAAA";
     DesignDraft.name := "Design 11/2/2026"; DesignDraft.style := "Traditional" |}.

End Demo.

(** * Properties *)

(** ** Arrays *)

Lemma Js_index_Some {A} (l : list A) i x :
  Js.index l i = Some x ↔ (0 ≤ i)%Z ∧ l !! Z.to_nat i = Some x.
Proof.
  unfold Js.index. case_decide; [tauto|].
  split; [done|]. intros []; lia.
Qed.

Lemma Js_index_last {A} (l : list A) x :
  Js.index (l ++ [x]) (Js.length (l ++ [x]) - 1) = Some x.
Proof.
  apply Js_index_Some. unfold Js.length. rewrite length_app. simpl. split; [lia|].
  replace (Z.to_nat _) with (length l + 0)%nat by lia.
  by rewrite lookup_app_r, Nat.add_0_r, Nat.sub_diag by lia.
Qed.

Lemma Js_slice0_length {A} (l : list A) e :
  (Js.length (Js.slice0 l e) ≤ Js.length l)%Z.
Proof. unfold Js.slice0, Js.length. rewrite length_take. lia. Qed.

Lemma Js_slice0_take {A} (l : list A) e :
  (0 ≤ e)%Z → Js.slice0 l e = take (Z.to_nat e) l.
Proof.
  intros He. unfold Js.slice0, Js.length. case_decide; [lia|].
  destruct (decide (e ≤ Z.of_nat (length l))%Z).
  - by rewrite Z.min_l.
  - rewrite Z.min_r, Nat2Z.id by lia. rewrite !take_ge; [done|lia|lia].
Qed.

Lemma truthy_Some k : k ≠ EmptyString → Js.truthy (Some k) = true.
Proof. intros Hk. unfold Js.truthy. by rewrite bool_decide_eq_true. Qed.

(** The helpers on the values the source meets. *)

Example slice0_from_end : Js.slice0 ["a"; "b"; "c"] (-1) = ["a"; "b"].
Proof. reflexivity. Qed.

Example slice0_past_end : Js.slice0 ["a"; "b"; "c"] 7 = ["a"; "b"; "c"].
Proof. reflexivity. Qed.

Example index_before_start : Js.index ["a"; "b"] (-1) = None.
Proof. reflexivity. Qed.

Example split_comma_data_url :
  AIToolsPanel.split_comma "data:image/png;base64,iVBORw0KGgo="
  = ["data:image/png;base64"; "iVBORw0KGgo="].
Proof. reflexivity. Qed.

Example match_mimeType_png :
  AIToolsPanel.match_mimeType "data:image/png;base64" = Some "image/png".
Proof. reflexivity. Qed.

Example match_mimeType_none : AIToolsPanel.match_mimeType "image/png" = None.
Proof. reflexivity. Qed.

Example fabric_id_at : TattooCanvas.fabric_id 1700000000000 = "fabric_1700000000000".
Proof. vm_compute. reflexivity. Qed.

(** Strings cut and trimmed by code units: [caf\u00e9] is four code units
    on five bytes, a no-break space is white space, and a cut in the middle
    of a surrogate pair leaves the first surrogate. *)
Example code_units_cafe :
  Js.code_units (String "c" (String "a" (String "f" (String "195" (String "169" EmptyString)))))
  = [99; 97; 102; 233]%N.
Proof. vm_compute. reflexivity. Qed.

Example substring0_code_units :
  Js.substring0 4 (String "c" (String "a" (String "f" (String "195" (String "169" "s")))))
  = String "c" (String "a" (String "f" (String "195" (String "169" EmptyString)))).
Proof. vm_compute. reflexivity. Qed.

Example substring0_surrogate :
  Js.code_units (String "240" (String "159" (String "142" (String "168" EmptyString))))
  = [55356; 57256]%N
  ∧ Js.substring0 1 (String "240" (String "159" (String "142" (String "168" EmptyString))))
    = String "237" (String "160" (String "188" EmptyString)).
Proof. vm_compute. by split. Qed.

Example trim_no_break_space :
  Js.trim_is_empty (String "194" (String "160" (String "009" " "))) = true
  ∧ Js.trim_is_empty " a " = false.
Proof. vm_compute. by split. Qed.

Example getObjectName_path :
  Store.getObjectName (Demo.path (Some "fabric_1") true) = "Path".
Proof. reflexivity. Qed.

(** ** The history *)

Section StoreFacts.
Context `{Externals}.
Import Store.

Lemma addToHistory_push s c :
  canvas s = Some c →
  Js.index (history s) (historyIndex s) ≠ Some (snapshot c) →
  addToHistory s
  = set_history (pushed s (snapshot c)) (Js.length (pushed s (snapshot c)) - 1) s.
Proof.
  intros Hc Hne. unfold addToHistory. rewrite Hc, decide_False by done.
  unfold pushed, Js.push, Js.shift. by case_decide.
Qed.

Lemma addToHistory_same s c :
  canvas s = Some c →
  Js.index (history s) (historyIndex s) = Some (snapshot c) →
  addToHistory s = s.
Proof. intros Hc He. unfold addToHistory. by rewrite Hc, decide_True. Qed.

(** A call either leaves the store alone or records the snapshot. *)
Lemma addToHistory_cases s :
  addToHistory s = s
  ∨ ∃ c, canvas s = Some c
       ∧ Js.index (history s) (historyIndex s) ≠ Some (snapshot c)
       ∧ addToHistory s
         = set_history (pushed s (snapshot c))
             (Js.length (pushed s (snapshot c)) - 1) s.
Proof.
  destruct (canvas s) as [c|] eqn:Hc.
  - destruct (decide (Js.index (history s) (historyIndex s) = Some (snapshot c))).
    + left. by apply (addToHistory_same s c).
    + right. exists c. split_and!; [done..|]. by apply addToHistory_push.
  - left. unfold addToHistory. by rewrite Hc.
Qed.

(** Rewrite [addToHistory s] in the goal, once for each of its two cases. *)
Ltac split_addToHistory s c :=
  let Heq := fresh "Heq" in
  destruct (addToHistory_cases s) as [Heq|(c & _ & _ & Heq)]; rewrite Heq.


Lemma pushed_length s state :
  history_capped s → (Js.length (pushed s state) ≤ CONFIG.CANVAS.MAX_HISTORY)%Z.
Proof.
  unfold history_capped, pushed. intros Hcap.
  pose proof (Js_slice0_length (history s) (historyIndex s + 1)) as Hk.
  revert Hcap Hk. unfold Js.length, CONFIG.CANVAS.MAX_HISTORY.
  case_decide as Hd; rewrite ?length_drop, length_app in *; simpl in *; lia.
Qed.

Lemma pushed_last s state :
  Js.index (pushed s state) (Js.length (pushed s state) - 1) = Some state.
Proof.
  unfold pushed. set (kept := Js.slice0 _ _). case_decide as Hd.
  - pose proof (Js_index_last kept state) as Hl.
    apply Js_index_Some in Hl as [_ Hl]. apply Js_index_Some.
    revert Hd Hl. unfold Js.length, CONFIG.CANVAS.MAX_HISTORY.
    rewrite length_drop, length_app. simpl. intros Hd Hl. split; [lia|].
    rewrite lookup_drop. rewrite <- Hl. f_equal. lia.
  - apply Js_index_last.
Qed.

Lemma addToHistory_canvas s : canvas (addToHistory s) = canvas s.
Proof. by split_addToHistory s c. Qed.

Lemma addToHistory_capped s : history_capped s → history_capped (addToHistory s).
Proof.
  intros Hcap. split_addToHistory s c; [done|].
  unfold history_capped. simpl. by apply pushed_length.
Qed.


Lemma addToHistory_parses s : history_parses s → history_parses (addToHistory s).
Proof.
  intros Hp. split_addToHistory s c; [done|].
  unfold history_parses, pushed. simpl.
  set (kept := Js.slice0 _ _).
  assert (Forall (λ e, is_Some (JSON_parse e)) (kept ++ [snapshot c])) as Hall.
  { apply Forall_app. split; [by apply Forall_take|].
    apply Forall_singleton, JSON_parse_stringify. }
  case_decide; [by apply Forall_drop|done].
Qed.

Lemma addToHistory_idem s : addToHistory (addToHistory s) = addToHistory s.
Proof.
  destruct (addToHistory_cases s) as [Heq|(c & Hc & _ & Heq)]; [by rewrite !Heq|].
  rewrite Heq. unfold addToHistory at 1. simpl. rewrite Hc.
  rewrite decide_True; [done|]. apply pushed_last.
Qed.

Lemma addToHistory_calls_capped edits s :
  history_capped s → history_capped (addToHistory_calls edits s).
Proof.
  revert s. induction edits as [|c edits IH]; intros s Hcap; [done|].
  simpl. apply IH. by apply addToHistory_capped.
Qed.

(** C10. When the canvas serialises to the entry [history[historyIndex]],
    [addToHistory] leaves the store, hence [history] and [historyIndex],
    as they are; and any number of calls in a row, with no edit in between,
    leave the store as the first of them did. *)
Theorem addToHistory_unchanged_canvas s :
  (∀ c, canvas s = Some c →
        Js.index (history s) (historyIndex s) = Some (snapshot c) →
        addToHistory s = s
        ∧ history (addToHistory s) = history s
        ∧ historyIndex (addToHistory s) = historyIndex s)
  ∧ (∀ n, Nat.iter (S n) addToHistory s = addToHistory s).
Proof.
  split.
  - intros c Hc He. by rewrite (addToHistory_same s c).
  - induction n as [|n IH]; [done|].
    change (addToHistory (Nat.iter (S n) addToHistory s) = addToHistory s).
    by rewrite IH, addToHistory_idem.
Qed.

(** ** Undo and redo *)

Lemma updateLayers_canvas s : canvas (updateLayers s) = canvas s.
Proof. unfold updateLayers. by destruct (canvas s) eqn:Hc. Qed.

Lemma updateLayers_history s : history (updateLayers s) = history s.
Proof. unfold updateLayers. by destruct (canvas s). Qed.

Lemma updateLayers_historyIndex s : historyIndex (updateLayers s) = historyIndex s.
Proof. unfold updateLayers. by destruct (canvas s). Qed.

Lemma undo_end_history newIndex s : history (undo_end newIndex s) = history s.
Proof. unfold undo_end. simpl. apply updateLayers_history. Qed.

Lemma redo_end_history newIndex s : history (redo_end newIndex s) = history s.
Proof. unfold redo_end. simpl. apply updateLayers_history. Qed.



Lemma steps_trans s0 s s' : steps s0 s → steps s s' → steps s0 s'.
Proof.
  intros H0.
  induction 1 as [s|s1 s c _ IH|s1 s s' _ IH Hc Hh Hi|s1 s _ IH|s1 s _ IH
                 |s1 s s' newIndex j _ IH Hbegin Hrest _
                 |s1 s s' newIndex j _ IH Hbegin Hrest _].
  - done.
  - by apply steps_canvas, IH.
  - by eapply steps_fields; [apply IH|..].
  - by apply steps_addToHistory, IH.
  - by apply steps_clearHistory, IH.
  - by eapply steps_undo; [apply IH|..].
  - by eapply steps_redo; [apply IH|..].
Qed.

(** A change fabric makes to the canvas, with the handler it calls on the
    event it raises, is a run of the store. *)
Lemma steps_handleModified s0 s c :
  steps s0 s → steps s0 (TattooCanvas.handleModified (set_canvas c s)).
Proof.
  intros Hs. unfold TattooCanvas.handleModified.
  eapply steps_fields;
    [apply steps_addToHistory, steps_canvas, Hs
    |apply updateLayers_canvas|apply updateLayers_history
    |apply updateLayers_historyIndex].
Qed.

(** No run takes a history within the cap beyond it. *)
Lemma steps_capped s0 s : steps s0 s → history_capped s0 → history_capped s.
Proof.
  induction 1 as [s|s0 s c _ IH|s0 s s' _ IH Hc Hh Hi|s0 s _ IH|s0 s _ IH
                 |s0 s s' newIndex j _ IH1 _ _ IH2|s0 s s' newIndex j _ IH1 _ _ IH2];
    intros Hcap.
  - done.
  - by apply IH.
  - unfold history_capped in *. rewrite Hh. by apply IH.
  - by apply addToHistory_capped, IH.
  - by unfold history_capped.
  - unfold history_capped. rewrite undo_end_history. by apply IH2, IH1.
  - unfold history_capped. rewrite redo_end_history. by apply IH2, IH1.
Qed.

(** Every entry of the history, on any run from the initial store, is text
    [JSON.parse] accepts: an [undo] or a [redo] whose index is a position of
    the history does not fail to parse. *)
Lemma steps_parses s0 s : steps s0 s → history_parses s0 → history_parses s.
Proof.
  induction 1 as [s|s0 s c _ IH|s0 s s' _ IH Hc Hh Hi|s0 s _ IH|s0 s _ IH
                 |s0 s s' newIndex j _ IH1 _ _ IH2|s0 s s' newIndex j _ IH1 _ _ IH2];
    intros Hp.
  - done.
  - by apply IH.
  - unfold history_parses in *. rewrite Hh. by apply IH.
  - by apply addToHistory_parses, IH.
  - by constructor.
  - unfold history_parses. rewrite undo_end_history. by apply IH2, IH1.
  - unfold history_parses. rewrite redo_end_history. by apply IH2, IH1.
Qed.

(** Reading the snapshot at a position of the history succeeds in a store
    whose entries all parse. *)
Lemma load_snapshot s newIndex :
  history_parses s →
  (0 ≤ newIndex ≤ Js.length (history s) - 1)%Z →
  ∃ snap j, Js.index (history s) newIndex = Some snap ∧ JSON_parse snap = Some j
    ∧ JSON_parse_value (Js.index (history s) newIndex) = Normal j.
Proof.
  intros Hp Hr. unfold Js.length in Hr.
  destruct (lookup_lt_is_Some_2 (history s) (Z.to_nat newIndex)) as [snap Hsnap]; [lia|].
  assert (Js.index (history s) newIndex = Some snap) as Hi.
  { apply Js_index_Some. split; [lia|done]. }
  destruct (Forall_lookup_1 _ _ _ _ Hp Hsnap) as [j Hj].
  exists snap, j. split_and!; [done..|].
  unfold JSON_parse_value. rewrite Hi. simpl. by rewrite Hj.
Qed.

(** [redo] up to its wait.  With a canvas and an entry after the current
    one, in a store whose entries parse and whose index is not below -1,
    [redo] hands fabric the parsed entry [history[historyIndex + 1]] and is
    to write [historyIndex + 1]; at the last entry or beyond, or with no
    canvas, it loads nothing and will write nothing. *)
Theorem redo_reads_next_snapshot :
  (∀ s c, canvas s = Some c → history_parses s → (-1 ≤ historyIndex s)%Z →
     (historyIndex s < Js.length (history s) - 1)%Z →
     ∃ snap j,
       Js.index (history s) (historyIndex s + 1) = Some snap
       ∧ JSON_parse snap = Some j
       ∧ redo_begin s = Normal (Some ((historyIndex s + 1)%Z, j)))
  ∧ (∀ s, (Js.length (history s) - 1 ≤ historyIndex s)%Z ∨ canvas s = None →
          redo_begin s = Normal None).
Proof.
  split.
  - intros s c Hc Hp Hlo Hi.
    destruct (load_snapshot s (historyIndex s + 1) Hp)
      as (snap & j & Hsnap & Hj & Hv); [lia|].
    exists snap, j. split; [done|]. split; [done|].
    unfold redo_begin. rewrite Hc, decide_True by lia. by rewrite Hv.
  - intros s [Hi|Hc]; unfold redo_begin.
    + destruct (canvas s); [|done]. by rewrite decide_False by lia.
    + by rewrite Hc.
Qed.



(** C1. From the initial store, whatever the canvas is at each call, the
    history never has more than [MAX_HISTORY] entries after any number of
    [addToHistory] calls; a call never takes a history within the cap
    beyond it, and no state of the store, whatever operations led to it, has
    a longer history.  A call that records a snapshot keeps the entries
    up to the current one (the redo tail goes), appends the snapshot, drops
    the oldest entry when that makes more than [MAX_HISTORY], and points
    [historyIndex] at the last entry. *)
Theorem history_never_exceeds_cap :
  (∀ edits,
     (Js.length (history (addToHistory_calls edits initial))
      ≤ CONFIG.CANVAS.MAX_HISTORY)%Z)
  ∧ (∀ s, history_capped s → history_capped (addToHistory s))
  ∧ (∀ s, reachable s → history_capped s)
  ∧ (∀ s c, history_inv s → canvas s = Some c →
       Js.index (history s) (historyIndex s) ≠ Some (snapshot c) →
       let kept := take (Z.to_nat (historyIndex s + 1)) (history s) in
       history (addToHistory s)
       = (if decide (CONFIG.CANVAS.MAX_HISTORY < Js.length (kept ++ [snapshot c]))%Z
          then drop 1 (kept ++ [snapshot c]) else kept ++ [snapshot c])
       ∧ historyIndex (addToHistory s)
         = (Js.length (history (addToHistory s)) - 1)%Z).
Proof.
  split_and!.
  - intros edits. apply addToHistory_calls_capped. by unfold history_capped.
  - apply addToHistory_capped.
  - intros s Hreach. apply (steps_capped _ _ Hreach). by unfold history_capped.
  - intros s c [Hr _] Hc Hne kept.
    rewrite (addToHistory_push s c) by done. simpl. split; [|done].
    unfold pushed. rewrite Js_slice0_take by lia. done.
Qed.

(** The store after the canvas mounted on [c0] and one edit made it [c1]. *)
Lemma single_edit c0 c1 :
  snapshot c0 ≠ snapshot c1 →
  addToHistory (set_canvas (Some c1) (addToHistory (setCanvas c0 initial)))
  = set_history [snapshot c0; snapshot c1] 1
      (set_canvas (Some c1) (setCanvas c0 initial)).
Proof.
  intros Hne.
  assert (addToHistory (setCanvas c0 initial)
          = set_history [snapshot c0] 0 (setCanvas c0 initial)) as H0 by done.
  rewrite H0. unfold addToHistory. simpl.
  rewrite decide_False by (unfold Js.index; simpl; congruence). done.
Qed.

(** C2, the code after a single edit.  The canvas mounts on [c0], one edit
    makes it [c1], and [undo] is called: the history holds the two
    snapshots, [historyIndex] is 1, and [undo] hands fabric the snapshot of
    [c0] and is to write index 0 when fabric calls back.  While fabric loads
    it raises ['object:removed'], with the canvas at some [c'] that is no
    longer [c1]: the handler records [c'] as a third entry and moves
    [historyIndex] to 2.  If fabric never calls back, the store stays so;
    if it calls back afterwards, index 0 is written under a history of three
    entries; and if it has called back before, the handler records [c']
    over the entry of the edit, unless [c'] is [c0] again.  In none of these
    runs is the history the one [undo] found with the index one lower,
    except the last with [c'] serialising as [c0]. *)
Theorem undo_after_single_edit (c0 c1 c' : Fabric.Canvas) :
  snapshot c0 ≠ snapshot c1 → snapshot c' ≠ snapshot c1 →
  let s1 := addToHistory (set_canvas (Some c1) (addToHistory (setCanvas c0 initial))) in
  let s2 := TattooCanvas.handleModified (set_canvas (Some c') s1) in
  let s3 := TattooCanvas.handleModified (set_canvas (Some c') (undo_end 0 s1)) in
  (history s1 = [snapshot c0; snapshot c1] ∧ historyIndex s1 = 1%Z)
  ∧ (∃ j0, JSON_parse (snapshot c0) = Some j0
           ∧ undo_begin s1 = Normal (Some (0%Z, j0)))
  ∧ (history s2 = [snapshot c0; snapshot c1; snapshot c'] ∧ historyIndex s2 = 2%Z)
  ∧ (history (undo_end 0 s2) = [snapshot c0; snapshot c1; snapshot c']
     ∧ historyIndex (undo_end 0 s2) = 0%Z)
  ∧ (snapshot c' ≠ snapshot c0 →
     history s3 = [snapshot c0; snapshot c'] ∧ historyIndex s3 = 1%Z)
  ∧ (snapshot c' = snapshot c0 →
     history s3 = [snapshot c0; snapshot c1] ∧ historyIndex s3 = 0%Z)
  ∧ reachable s2 ∧ reachable (undo_end 0 s2) ∧ reachable s3.
Proof.
  intros Hne Hne' s1 s2 s3.
  destruct (JSON_parse_stringify (toJSON c0)) as [j0 Hj0].
  assert (undo_begin s1 = Normal (Some (0%Z, j0))) as Hbegin.
  { subst s1. rewrite single_edit by done.
    unfold undo_begin. simpl. unfold JSON_parse_value, Js.index. simpl.
    unfold snapshot. rewrite Hj0. reflexivity. }
  assert (reachable s1) as Hr1.
  { subst s1. unfold reachable, setCanvas. repeat constructor. }
  assert (s2 = updateLayers (set_history [snapshot c0; snapshot c1; snapshot c'] 2
                (set_canvas (Some c') (set_canvas (Some c1) (setCanvas c0 initial)))))
    as Hs2.
  { subst s2 s1. rewrite single_edit by done.
    unfold TattooCanvas.handleModified, addToHistory. simpl.
    rewrite decide_False by (unfold Js.index; simpl; congruence). done. }
  split_and!.
  - subst s1. by rewrite single_edit.
  - subst s1. by rewrite single_edit.
  - by exists j0.
  - by rewrite Hs2.
  - by rewrite Hs2.
  - rewrite undo_end_history. by rewrite Hs2.
  - done.
  - intros Hne0. subst s3 s1. rewrite single_edit by done.
    unfold TattooCanvas.handleModified, addToHistory. simpl.
    rewrite decide_False by (unfold Js.index; simpl; congruence). done.
  - intros He0. subst s3 s1. rewrite single_edit by done.
    unfold TattooCanvas.handleModified, addToHistory. simpl.
    rewrite decide_True by (unfold Js.index; simpl; congruence). done.
  - by apply steps_handleModified.
  - unfold reachable. eapply steps_undo; [exact Hr1|exact Hbegin|].
    apply steps_handleModified, steps_refl.
  - apply steps_handleModified.
    unfold reachable. eapply steps_undo; [exact Hr1|exact Hbegin|apply steps_refl].
Qed.


(** ** Layers *)

Lemma updateLayers_layers s c :
  canvas s = Some c → layers (updateLayers s) = deriveLayers c.
Proof. intros Hc. unfold updateLayers. by rewrite Hc. Qed.

Lemma find_by_id_first k objs i obj :
  objs !! i = Some obj → Fabric.id obj = Some k →
  (∀ j o, (j < i)%nat → objs !! j = Some o → Fabric.id o ≠ Some k) →
  find_by_id k objs = Some (i, obj).
Proof.
  intros Hi Hk Hfirst. apply list_find_Some. split_and!; [done..|].
  intros j o Hj Hlt. by apply (Hfirst j).
Qed.

(** Writing to an object that has a layer rewrites that layer and no other. *)
Lemma deriveLayers_insert c i obj obj' :
  Fabric.getObjects c !! i = Some obj →
  Fabric.id obj' = Fabric.id obj → Js.truthy (Fabric.id obj) = true →
  deriveLayers {| Fabric.getObjects := <[i := obj']> (Fabric.getObjects c) |}
  = <[layer_position c i := layerOf obj']> (deriveLayers c)
  ∧ deriveLayers c !! layer_position c i = Some (layerOf obj).
Proof.
  intros Hi Hid Ht. unfold deriveLayers, layer_position, deriveLayers. simpl.
  set (P := λ layer : LayerData, Is_true (Js.truthy (id layer))).
  assert (P (layerOf obj)) as HP by (unfold P; simpl; by rewrite Ht).
  assert (P (layerOf obj')) as HP' by (unfold P; simpl; by rewrite Hid, Ht).
  pose proof (lookup_lt_Some _ _ _ Hi) as Hlt.
  pose proof (take_drop_middle _ _ _ Hi) as Hsplit.
  rewrite insert_take_drop by done.
  destruct c as [objs]. simpl in *.
  remember (take i objs) as l1 eqn:Hl1. remember (drop (S i) objs) as l2 eqn:Hl2.
  clear Hl1 Hl2 Hi Hlt. subst objs.
  rewrite !fmap_app, !fmap_cons, !filter_app, !filter_cons_True by done.
  split.
  - rewrite insert_app_r_alt by done. by rewrite Nat.sub_diag.
  - by apply list_lookup_middle.
Qed.

(** C7, amended.  Let [obj] be the first object of the canvas
    whose id is [k], a non-empty id.  [toggleLayerVisibility k] negates the
    [visible] flag of [obj], and [toggleLayerLock k] negates its [selectable]
    and [evented] flags; no other object is written.  The layers the toggle
    derives at its end (deriving them again gives the same list) are the
    layers derived before it with the layer of [obj] replaced: its [visible]
    (respectively [locked]) flag is negated, its other flag and every other
    layer are as before. *)
Theorem toggle_first_object_with_id s c k i obj :
  canvas s = Some c →
  Fabric.getObjects c !! i = Some obj →
  Fabric.id obj = Some k → k ≠ EmptyString →
  (∀ j o, (j < i)%nat → Fabric.getObjects c !! j = Some o → Fabric.id o ≠ Some k) →
  let p := layer_position c i in
  deriveLayers c !! p = Some (layerOf obj)
  ∧ (let obj' := Fabric.set_visible (negb (Fabric.visible obj)) obj in
     let s' := toggleLayerVisibility k s in
     canvas s' = Some {| Fabric.getObjects := <[i := obj']> (Fabric.getObjects c) |}
     ∧ Fabric.visible obj' = negb (Fabric.visible obj)
     ∧ layers s' = <[p := layerOf obj']> (deriveLayers c)
     ∧ layers (updateLayers s') = layers s'
     ∧ visible (layerOf obj') = negb (visible (layerOf obj))
     ∧ locked (layerOf obj') = locked (layerOf obj)
     ∧ ∀ q, q ≠ p → layers s' !! q = deriveLayers c !! q)
  ∧ (let obj' := Fabric.set_selectable_evented
                   (negb (Fabric.selectable obj)) (negb (Fabric.evented obj)) obj in
     let s' := toggleLayerLock k s in
     canvas s' = Some {| Fabric.getObjects := <[i := obj']> (Fabric.getObjects c) |}
     ∧ Fabric.selectable obj' = negb (Fabric.selectable obj)
     ∧ Fabric.evented obj' = negb (Fabric.evented obj)
     ∧ layers s' = <[p := layerOf obj']> (deriveLayers c)
     ∧ layers (updateLayers s') = layers s'
     ∧ locked (layerOf obj') = negb (locked (layerOf obj))
     ∧ visible (layerOf obj') = visible (layerOf obj)
     ∧ ∀ q, q ≠ p → layers s' !! q = deriveLayers c !! q).
Proof.
  intros Hc Hi Hk Hne Hfirst p.
  pose proof (find_by_id_first k _ i obj Hi Hk Hfirst) as Hfind.
  assert (Js.truthy (Fabric.id obj) = true) as Ht by (rewrite Hk; by apply truthy_Some).
  assert (∀ obj', Fabric.id obj' = Fabric.id obj →
    ∀ s', s' = updateLayers (addToHistory (set_canvas
              (Some {| Fabric.getObjects := <[i := obj']> (Fabric.getObjects c) |}) s)) →
    canvas s' = Some {| Fabric.getObjects := <[i := obj']> (Fabric.getObjects c) |}
    ∧ layers s' = <[p := layerOf obj']> (deriveLayers c)
    ∧ layers (updateLayers s') = layers s'
    ∧ ∀ q, q ≠ p → layers s' !! q = deriveLayers c !! q) as Hgen.
  { intros obj' Hid s' ->.
    destruct (deriveLayers_insert c i obj obj' Hi Hid Ht) as [Hins _].
    set (c' := {| Fabric.getObjects := _ |}) in *.
    assert (canvas (updateLayers (addToHistory (set_canvas (Some c') s))) = Some c') as Hc'.
    { by rewrite updateLayers_canvas, addToHistory_canvas. }
    assert (layers (updateLayers (addToHistory (set_canvas (Some c') s)))
            = <[p := layerOf obj']> (deriveLayers c)) as Hl.
    { rewrite (updateLayers_layers _ c'); [done|]. by rewrite addToHistory_canvas. }
    split_and!; [done|done| |].
    - rewrite (updateLayers_layers _ c') by done. by rewrite Hl.
    - intros q Hq. rewrite Hl. by rewrite list_lookup_insert_ne. }
  split_and!.
  - by destruct (deriveLayers_insert c i obj obj Hi eq_refl Ht) as [_ ?].
  - intros obj' s'.
    destruct (Hgen obj' eq_refl s') as (? & ? & ? & ?).
    { subst s'. unfold toggleLayerVisibility. by rewrite Hc, Hfind. }
    split_and!; [done..| | |done].
    + simpl. by rewrite !orb_false_r.
    + done.
  - intros obj' s'.
    destruct (Hgen obj' eq_refl s') as (? & ? & ? & ?).
    { subst s'. unfold toggleLayerLock. by rewrite Hc, Hfind. }
    split_and!; done.
Qed.

End StoreFacts.

(** ** The designs database *)

Section DatabaseFacts.
Context `{Externals}.
Import DatabaseService.

(** C3. The record found under the identifier [saveDesign] returned has the
    canvas text that was saved, with the thumbnail, name and style saved
    with it, that identifier, and the timestamp taken at the save. *)
Theorem saveDesign_loadDesign now now' (design : DesignDraft.t) (db : designs) :
  ∃ r, loadDesign (saveDesign now now' design db).1
         (saveDesign now now' design db).2 = Some r
       ∧ Design.canvas r = DesignDraft.canvas design
       ∧ Design.thumbnail r = DesignDraft.thumbnail design
       ∧ Design.name r = DesignDraft.name design
       ∧ Design.style r = DesignDraft.style design
       ∧ Design.id r = (saveDesign now now' design db).1
       ∧ Design.timestamp r = toISOString now'.
Proof.
  eexists. split.
  - unfold loadDesign, saveDesign. simpl. apply lookup_insert_eq.
  - by split_and!.
Qed.

End DatabaseFacts.

(** After [deleteDesign] nothing is found under the identifier deleted, and
    every other identifier finds what it found before. *)
Theorem deleteDesign_loadDesign (id : string) (db : DatabaseService.designs) :
  DatabaseService.loadDesign id (DatabaseService.deleteDesign id db) = None
  ∧ ∀ id', id' ≠ id →
      DatabaseService.loadDesign id' (DatabaseService.deleteDesign id db)
      = DatabaseService.loadDesign id' db.
Proof.
  unfold DatabaseService.loadDesign, DatabaseService.deleteDesign. split.
  - apply lookup_delete_eq.
  - intros id' Hne. by apply lookup_delete_ne.
Qed.

Lemma index_le_timestamp a b :
  DatabaseService.index_le a b → DatabaseService.timestamp_le a b.
Proof.
  unfold DatabaseService.index_le, DatabaseService.timestamp_le.
  case_decide as Heq; [|done]. intros _. by rewrite Heq.
Qed.

Lemma Sorted_index_timestamp l :
  Sorted DatabaseService.index_le l → Sorted DatabaseService.timestamp_le l.
Proof.
  induction 1 as [|a l Hs IH Hhd]; constructor; [done|].
  destruct Hhd; constructor. by apply index_le_timestamp.
Qed.

(** C6. [getAllDesigns] returns exactly the stored records, each once, in
    the order of the timestamp index: every record's timestamp is at most
    that of every record after it, and records with the same timestamp come
    in the order of their identifiers. *)
Theorem getAllDesigns_by_timestamp (db : DatabaseService.designs) :
  (∀ r, r ∈ DatabaseService.getAllDesigns db ↔ ∃ id, db !! id = Some r)
  ∧ DatabaseService.getAllDesigns db ≡ₚ (snd <$> map_to_list db)
  ∧ length (DatabaseService.getAllDesigns db) = size db
  ∧ StronglySorted DatabaseService.timestamp_le (DatabaseService.getAllDesigns db)
  ∧ Sorted DatabaseService.index_le (DatabaseService.getAllDesigns db).
Proof.
  unfold DatabaseService.getAllDesigns. split_and!.
  - intros r. rewrite merge_sort_Permutation. rewrite list_elem_of_fmap. split.
    + intros ([id r'] & -> & Hin). exists id. by apply elem_of_map_to_list.
    + intros [id Hid]. exists (id, r). split; [done|]. by apply elem_of_map_to_list.
  - apply merge_sort_Permutation.
  - rewrite merge_sort_Permutation. rewrite length_fmap. apply length_map_to_list.
  - apply Sorted_StronglySorted; [apply _|]. apply Sorted_index_timestamp.
    apply Sorted_merge_sort; apply _.
  - apply Sorted_merge_sort; apply _.
Qed.

(** ** Identifiers *)

Lemma toString_inj now1 now2 : Js.toString now1 = Js.toString now2 → now1 = now2.
Proof. unfold Js.toString. apply (inj pretty). Qed.

Lemma fabric_id_inj now1 now2 :
  TattooCanvas.fabric_id now1 = TattooCanvas.fabric_id now2 → now1 = now2.
Proof.
  unfold TattooCanvas.fabric_id. intros Heq.
  apply toString_inj. by apply (inj (String.app "fabric_")) in Heq.
Qed.

Lemma object_added_id_fresh now obj :
  Js.truthy (Fabric.id obj) = false →
  Fabric.id (TattooCanvas.object_added_id now obj) = Some (TattooCanvas.fabric_id now).
Proof.
  unfold TattooCanvas.object_added_id, Js.truthy, Js.or_else. simpl.
  destruct (Fabric.id obj) as [k|]; [|done].
  destruct (bool_decide (k ≠ EmptyString)); [discriminate|done].
Qed.

(** C8, amended.  An identifier is the clock reading at creation,
    written in decimal (after [fabric_] for canvas objects and groups): two
    designs saved at different readings of [Date.now()] get different
    identifiers, and so do two objects, or two groups, named at different
    readings.  A save under an identifier not yet in the store adds a record
    and leaves the stored ones in place.  An object that already has an id
    keeps it. *)
Theorem identifiers_differ_across_clock_readings `{Externals} :
  (∀ now1 now1' now2 now2' d1 d2 (db1 db2 : DatabaseService.designs),
     now1 ≠ now2 →
     (DatabaseService.saveDesign now1 now1' d1 db1).1
     ≠ (DatabaseService.saveDesign now2 now2' d2 db2).1)
  ∧ (∀ now now' d (db : DatabaseService.designs),
       db !! Js.toString now = None →
       size (DatabaseService.saveDesign now now' d db).2 = S (size db)
       ∧ ∀ id r, db !! id = Some r →
                 (DatabaseService.saveDesign now now' d db).2 !! id = Some r)
  ∧ (∀ now1 now2 o1 o2, now1 ≠ now2 →
       Js.truthy (Fabric.id o1) = false → Js.truthy (Fabric.id o2) = false →
       Fabric.id (TattooCanvas.object_added_id now1 o1)
       ≠ Fabric.id (TattooCanvas.object_added_id now2 o2))
  ∧ (∀ now obj, Js.truthy (Fabric.id obj) = true →
       Fabric.id (TattooCanvas.object_added_id now obj) = Fabric.id obj)
  ∧ (∀ now1 now2, now1 ≠ now2 → Store.groupSelection_id now1 ≠ Store.groupSelection_id now2).
Proof.
  split_and!.
  - intros now1 now1' now2 now2' d1 d2 db1 db2 Hne Heq. simpl in Heq.
    by apply toString_inj in Heq.
  - intros now now' d db Hfree. unfold DatabaseService.saveDesign. simpl. split.
    + by apply map_size_insert_None.
    + intros id r Hid. rewrite lookup_insert_ne; [done|]. congruence.
  - intros now1 now2 o1 o2 Hne H1 H2.
    rewrite !object_added_id_fresh by done. intros Heq.
    apply (inj Some) in Heq. by apply fabric_id_inj in Heq.
  - intros now obj Ht. unfold TattooCanvas.object_added_id, Js.truthy, Js.or_else in *.
    simpl. destruct (Fabric.id obj) as [k|]; [|discriminate].
    by destruct (bool_decide (k ≠ EmptyString)).
  - intros now1 now2 Hne Heq. by apply (fabric_id_inj now1 now2) in Heq.
Qed.

(** ** The AI service *)

Section AIFacts.
Context `{Externals}.
Import Store AIToolsPanel.

(** C5, the code on the replies it reads unguarded.  Given the reply of the
    image model, [generateDesign] throws [AI failed to generate a design.]
    when the list of images is absent or empty, and returns
    [data:image/png;base64,] followed by the bytes of the first entry when
    that entry has an image with bytes.  When the first entry has no image,
    it throws the engine's [TypeError] for reading [imageBytes] of
    [undefined]; when the image has no bytes, it returns
    [data:image/png;base64,undefined]. *)
Theorem generateDesign_reads_first_entry_unguarded (this : TattooAIService.t)
    (prompt style : string) (response : Genai.GenerateImagesResponse) :
  generateImages (TattooAIService.enhancedPrompt prompt style) = Normal response →
  (Genai.generatedImages response = None ∨ Genai.generatedImages response = Some [] →
     TattooAIService.generateDesign this prompt style
     = Throw "AI failed to generate a design.")
  ∧ (∀ first others image bytes,
       Genai.generatedImages response = Some (first :: others) →
       Genai.image first = Some image → Genai.imageBytes image = Some bytes →
       TattooAIService.generateDesign this prompt style
       = Normal ("data:image/png;base64," +:+ bytes))
  ∧ (∀ first others,
       Genai.generatedImages response = Some (first :: others) →
       Genai.image first = None →
       TattooAIService.generateDesign this prompt style
       = Throw (TypeError_message "imageBytes"))
  ∧ (∀ first others image,
       Genai.generatedImages response = Some (first :: others) →
       Genai.image first = Some image → Genai.imageBytes image = None →
       TattooAIService.generateDesign this prompt style
       = Normal "data:image/png;base64,undefined").
Proof.
  intros Hresp. unfold TattooAIService.generateDesign. rewrite Hresp. simpl.
  split_and!.
  - by intros [->| ->].
  - intros first others image bytes -> -> ->. done.
  - intros first others -> ->. done.
  - intros first others image -> -> ->. done.
Qed.

(** C4, amended.  With the service object built, let a handler of the
    mounted AI panel be started (for [generateDesign] with a prompt that is
    not blank and a canvas, for [convertToStencil] with a canvas that gives
    image data, for [suggestPlacement] with a prompt that is not blank), and
    let the service operation it awaits fail with [message].  The handler
    sets the loading flag and waits; when the failure arrives, on whatever
    page [v'] there is by then, it is caught: the loading flag is cleared,
    and the panel, if it is still the one mounted, shows the modal [Error]
    with [message]; if that panel has been unmounted meanwhile, no modal is
    set. *)
Theorem ai_operation_failure_shown (svc : TattooAIService.t) (now : Z)
    (v v' : Screen) (p : Panel) (message : string) :
  aiTools v = Some p →
  (∀ c, Js.trim_is_empty (prompt p) = false → canvas (store v) = Some c →
     TattooAIService.generateDesign svc (prompt p) (selectedStyle (store v))
     = Throw message →
     ∃ w r, generateDesign svc v
            = (on_store (setLoading true "Generating AI design...") v, Some w)
          ∧ resume now w v' = (r, None)
          ∧ failure_handled (mounts v) message v' r)
  ∧ (∀ c imageData, canvas (store v) = Some c →
     canvasImageData c = Normal imageData →
     TattooAIService.convertToStencil svc imageData = Throw message →
     ∃ w r, convertToStencil svc v
            = (on_store (setLoading true "Converting to stencil...") v, Some w)
          ∧ resume now w v' = (r, None)
          ∧ failure_handled (mounts v) message v' r)
  ∧ (Js.trim_is_empty (prompt p) = false →
     TattooAIService.suggestPlacement svc (prompt p) "Arm" = Throw message →
     ∃ w r, suggestPlacement svc v
            = (on_store (setLoading true "Getting placement advice...") v, Some w)
          ∧ resume now w v' = (r, None)
          ∧ failure_handled (mounts v) message v' r).
Proof.
  intros Hp.
  assert (failure_handled (mounts v) message v'
            (catch_finally (mounts v) message v')) as Hcaught.
  { unfold failure_handled, catch_finally, setModalContent.
    destruct (aiTools v') as [p'|] eqn:Hp'.
    - case_decide as Hm; simpl; rewrite ?Hp'.
      + split_and!; [done|done| |].
        * by intros ? [= <-] _.
        * by intros [|].
      + split_and!; [done|done| |done].
        intros ? _ ?. done.
    - simpl. rewrite Hp'. by split_and!. }
  split_and!.
  - intros c Hprompt Hc Hfail. eexists _, _. split.
    { unfold generateDesign. rewrite Hp, Hc, Hprompt, Hfail. reflexivity. }
    split; [reflexivity|done].
  - intros c imageData Hc Hdata Hfail. eexists _, _. split.
    { unfold convertToStencil. rewrite Hp, Hc, Hdata, Hfail. reflexivity. }
    split; [reflexivity|done].
  - intros Hprompt Hfail. eexists _, _. split.
    { unfold suggestPlacement. rewrite Hp, Hprompt, Hfail. reflexivity. }
    split; [reflexivity|done].
Qed.

End AIFacts.

(** * The properties on the small instance *)


(** C1 at a store that holds the snapshot of the blank canvas while the
    canvas holds two strokes: the call records the new snapshot. *)
Lemma history_never_exceeds_cap_witness :
  let s := Store.set_canvas (Some Demo.sketch)
             (Store.addToHistory (H := Demo.online)
                (Store.setCanvas Demo.blank Store.initial)) in
  Store.history_inv s
  ∧ Store.canvas s = Some Demo.sketch
  ∧ Js.index (Store.history s) (Store.historyIndex s)
    ≠ Some (Store.snapshot (H := Demo.online) Demo.sketch)
  ∧ Store.history (Store.addToHistory (H := Demo.online) s) = [EmptyString; "11"]
  ∧ Store.historyIndex (Store.addToHistory (H := Demo.online) s) = 1%Z.
Proof.
  intros s.
  assert (Store.history_inv s) as Hinv.
  { split; [vm_compute; split; discriminate|split; discriminate]. }
  assert (Js.index (Store.history s) (Store.historyIndex s)
          ≠ Some (Store.snapshot (H := Demo.online) Demo.sketch)) as Hne.
  { vm_compute. discriminate. }
  destruct (proj2 (proj2 (proj2 (history_never_exceeds_cap (H := Demo.online))))
              s Demo.sketch Hinv eq_refl Hne) as [Hh Hi].
  split_and!; [exact Hinv|reflexivity|exact Hne|exact Hh|exact Hi].
Defined.

(** C2 on a blank canvas on which one stroke was drawn.  [undo] hands
    fabric the blank snapshot; the load takes the stroke off, the handler of
    ['object:removed'] records the blank canvas as a third entry, and the
    index goes to 2 instead of 0. *)
Lemma undo_after_single_edit_witness :
  let s1 := Store.addToHistory (H := Demo.online)
              (Store.set_canvas (Some Demo.stroke)
                 (Store.addToHistory (H := Demo.online)
                    (Store.setCanvas Demo.blank Store.initial))) in
  let s2 := TattooCanvas.handleModified (H := Demo.online)
              (Store.set_canvas (Some Demo.blank) s1) in
  Store.snapshot (H := Demo.online) Demo.blank
  ≠ Store.snapshot (H := Demo.online) Demo.stroke
  ∧ Store.history s1 = [EmptyString; "1"] ∧ Store.historyIndex s1 = 1%Z
  ∧ Store.undo_begin (H := Demo.online) s1 = Normal (Some (0%Z, []))
  ∧ Store.history s2 = [EmptyString; "1"; EmptyString]
  ∧ Store.historyIndex s2 = 2%Z
  ∧ Store.history (Store.undo_end (H := Demo.online) 0 s2)
    = [EmptyString; "1"; EmptyString].
Proof.
  intros s1 s2.
  assert (Store.snapshot (H := Demo.online) Demo.blank
          ≠ Store.snapshot (H := Demo.online) Demo.stroke) as Hne by discriminate.
  destruct (undo_after_single_edit (H := Demo.online)
              Demo.blank Demo.stroke Demo.blank Hne Hne)
    as ((Hh1 & Hi1) & _ & (Hh2 & Hi2) & (Hh3 & _) & _).
  split_and!; [exact Hne|exact Hh1|exact Hi1|reflexivity|exact Hh2|exact Hi2|exact Hh3].
Defined.



(** C10 at the store after two strokes, whose canvas is the one recorded. *)
Lemma addToHistory_unchanged_canvas_witness :
  Store.canvas Demo.drawn = Some Demo.sketch
  ∧ Js.index (Store.history Demo.drawn) (Store.historyIndex Demo.drawn)
    = Some (Store.snapshot (H := Demo.online) Demo.sketch)
  ∧ Store.addToHistory (H := Demo.online) Demo.drawn = Demo.drawn
  ∧ Store.history (Store.addToHistory (H := Demo.online) Demo.drawn) = [EmptyString; "11"]
  ∧ Store.historyIndex (Store.addToHistory (H := Demo.online) Demo.drawn) = 1%Z.
Proof.
  split; [reflexivity|]. split; [reflexivity|].
  exact (proj1 (addToHistory_unchanged_canvas (H := Demo.online) Demo.drawn)
           Demo.sketch eq_refl eq_refl).
Defined.

(** C7 at the store after two strokes, for the second stroke. *)
Lemma toggle_first_object_with_id_witness :
  let k := "fabric_1700000000950" in
  let obj := Demo.path (Some k) true in
  Store.canvas Demo.drawn = Some Demo.sketch
  ∧ Fabric.getObjects Demo.sketch !! 1%nat = Some obj
  ∧ Fabric.id obj = Some k ∧ k ≠ EmptyString
  ∧ (∀ j o, (j < 1)%nat → Fabric.getObjects Demo.sketch !! j = Some o →
            Fabric.id o ≠ Some k)
  ∧ Store.visible <$> Store.layers (Store.toggleLayerVisibility (H := Demo.online) k Demo.drawn)
    = [true; false]
  ∧ Store.locked <$> Store.layers (Store.toggleLayerLock (H := Demo.online) k Demo.drawn)
    = [false; true].
Proof.
  intros k obj.
  assert (k ≠ EmptyString) as Hk by discriminate.
  assert (∀ j o, (j < 1)%nat → Fabric.getObjects Demo.sketch !! j = Some o →
                 Fabric.id o ≠ Some k) as Hfirst.
  { intros [|j] o Hj; [|lia]. intros [= <-]. discriminate. }
  destruct (toggle_first_object_with_id (H := Demo.online)
              Demo.drawn Demo.sketch k 1 obj eq_refl eq_refl eq_refl Hk Hfirst)
    as (_ & (_ & _ & Hv & _) & (_ & _ & _ & Hl & _)).
  split_and!; [reflexivity|reflexivity|reflexivity|exact Hk|exact Hfirst| |].
  - rewrite Hv. reflexivity.
  - rewrite Hl. reflexivity.
Defined.

(** C7 fails when two objects carry one id.  Two strokes added within the
    same millisecond are both named [fabric_1700000000000] by the
    ['object:added'] handler; both have a layer with that id.  Toggling the
    visibility of that id hides the first stroke: the second stroke and its
    layer are as visible as before. *)
Lemma toggle_with_shared_id_misses_second_object :
  let k := "fabric_1700000000000" in
  let s := Store.updateLayers (H := Demo.online) (Store.setCanvas Demo.twins Store.initial) in
  let s' := Store.toggleLayerVisibility (H := Demo.online) k s in
  Fabric.id <$> Fabric.getObjects Demo.twins = [Some k; Some k]
  ∧ Fabric.visible <$> Fabric.getObjects Demo.twins = [true; true]
  ∧ Store.id <$> Store.layers s = [Some k; Some k]
  ∧ Store.visible <$> Store.layers s = [true; true]
  ∧ (λ c, Fabric.visible <$> Fabric.getObjects c) <$> Store.canvas s'
    = Some [false; true]
  ∧ Store.visible <$> Store.layers s' = [false; true]
  ∧ Store.visible <$> Store.layers (Store.updateLayers (H := Demo.online) s')
    = [false; true].
Proof. vm_compute. by split_and!. Qed.

(** C8 fails within one millisecond.  Two different designs saved at the
    same reading of [Date.now()] get the same identifier, and the store ends
    with the second one only; two different objects added at the same
    reading get the same id. *)
Lemma same_millisecond_same_identifier :
  let now := 1700000000000%Z in
  let d1 := Demo.draft "11" in
  let d2 := Demo.draft "10" in
  let first := DatabaseService.saveDesign (H := Demo.online) now now d1 ∅ in
  let second := DatabaseService.saveDesign (H := Demo.online) now (now + 1) d2 first.2 in
  let o1 := Demo.path None true in
  let o2 := Demo.path None false in
  d1 ≠ d2
  ∧ first.1 = second.1
  ∧ size second.2 = 1%nat
  ∧ Design.canvas <$> DatabaseService.loadDesign first.1 second.2 = Some "10"
  ∧ o1 ≠ o2
  ∧ Fabric.id (TattooCanvas.object_added_id now o1)
    = Fabric.id (TattooCanvas.object_added_id now o2).
Proof. split_and!; [discriminate|vm_compute; reflexivity..|discriminate|reflexivity]. Qed.

(** C8 at two consecutive milliseconds. *)
Lemma identifiers_differ_across_clock_readings_witness :
  let t1 := 1700000000000%Z in
  let t2 := 1700000000001%Z in
  let d := Demo.draft "11" in
  let o := Demo.path None true in
  t1 ≠ t2
  ∧ (∅ : DatabaseService.designs) !! Js.toString t1 = None
  ∧ Js.truthy (Fabric.id o) = false
  ∧ (DatabaseService.saveDesign (H := Demo.online) t1 t1 d ∅).1
    ≠ (DatabaseService.saveDesign (H := Demo.online) t2 t2 d ∅).1
  ∧ size (DatabaseService.saveDesign (H := Demo.online) t1 t1 d ∅).2 = 1%nat
  ∧ Fabric.id (TattooCanvas.object_added_id t1 o)
    ≠ Fabric.id (TattooCanvas.object_added_id t2 o)
  ∧ Store.groupSelection_id t1 ≠ Store.groupSelection_id t2.
Proof.
  intros t1 t2 d o.
  assert (t1 ≠ t2) as Hne by discriminate.
  destruct (identifiers_differ_across_clock_readings (H := Demo.online))
    as (Hsave & Hadd & Hobj & _ & Hgroup).
  split_and!; [exact Hne|reflexivity|reflexivity| | | |].
  - exact (Hsave t1 t1 t2 t2 d d ∅ ∅ Hne).
  - exact (proj1 (Hadd t1 t1 d ∅ eq_refl)).
  - exact (Hobj t1 t2 o o Hne eq_refl eq_refl).
  - exact (Hgroup t1 t2 Hne).
Defined.

(** C5 when the model answers with one entry whose image was withheld, and
    with one whose image has no bytes. *)
Lemma generateDesign_reads_first_entry_unguarded_witness :
  let this := {| TattooAIService.apiKey := "key" |} in
  generateImages (Externals := Demo.filtered)
    (TattooAIService.enhancedPrompt "a rose" "Traditional") = Normal Demo.filteredImage
  ∧ TattooAIService.generateDesign (H := Demo.filtered) this "a rose" "Traditional"
    = Throw "Cannot read properties of undefined (reading 'imageBytes')"
  ∧ TattooAIService.generateDesign (H := Demo.hollow) this "a rose" "Traditional"
    = Normal "data:image/png;base64,undefined"
  ∧ TattooAIService.generateDesign (H := Demo.online) this "a rose" "Traditional"
    = Normal "data:image/png;base64,iVBORw0KGgo=".
Proof.
  intros this.
  destruct (generateDesign_reads_first_entry_unguarded (H := Demo.filtered)
              this "a rose" "Traditional" Demo.filteredImage eq_refl)
    as (_ & _ & Hfiltered & _).
  destruct (generateDesign_reads_first_entry_unguarded (H := Demo.hollow)
              this "a rose" "Traditional" Demo.emptyImage eq_refl)
    as (_ & _ & _ & Hhollow).
  destruct (generateDesign_reads_first_entry_unguarded (H := Demo.online)
              this "a rose" "Traditional" Demo.oneImage eq_refl)
    as (_ & Hbytes & _ & _).
  split_and!; [reflexivity| | |].
  - exact (Hfiltered _ _ eq_refl eq_refl).
  - exact (Hhollow _ _ _ eq_refl eq_refl eq_refl).
  - exact (Hbytes _ _ _ _ eq_refl eq_refl eq_refl).
Defined.

(** C4 fails for the missing key.  With [API_KEY] unset (or empty) the
    service object is never built: the constructor throws while the services
    module is evaluated, outside every handler, and the page ends with that
    error uncaught instead of a modal. *)
Lemma missing_api_key_is_uncaught :
  TattooAIService.aiService None
  = Throw "API_KEY is not set. Please set it in your environment variables."
  ∧ TattooAIService.aiService (Some EmptyString)
    = Throw "API_KEY is not set. Please set it in your environment variables."
  ∧ AIToolsPanel.load None
    = AIToolsPanel.Uncaught
        "API_KEY is not set. Please set it in your environment variables.".
Proof. by split_and!. Qed.

(** C4 when the model answers with no image, no content and no text.  With
    the panel still mounted when the failure arrives, each of the three
    handlers ends with the error in the modal; when the user has picked the
    brush meanwhile, the failure of [generateDesign] is caught, the loading
    flag is cleared, and the page has no panel to show it. *)
Lemma ai_operation_failure_shown_witness :
  let svc := {| TattooAIService.apiKey := "key" |} in
  let p := {| AIToolsPanel.prompt := "a rose"; AIToolsPanel.modalContent := None |} in
  let imageData := {| Genai.data := "iVBORw0KGgo="; Genai.mimeType := "image/png" |} in
  let waiting := AIToolsPanel.on_store
                   (Store.setLoading true "Generating AI design...") Demo.asking in
  let away := AIToolsPanel.selectTool Store.draw waiting in
  AIToolsPanel.aiTools Demo.asking = Some p
  ∧ Js.trim_is_empty "a rose" = false
  ∧ Store.canvas (AIToolsPanel.store Demo.asking) = Some Demo.sketch
  ∧ TattooAIService.generateDesign (H := Demo.silent) svc "a rose" "Traditional"
    = Throw "AI failed to generate a design."
  ∧ AIToolsPanel.canvasImageData (H := Demo.silent) Demo.sketch = Normal imageData
  ∧ TattooAIService.convertToStencil (H := Demo.silent) svc imageData
    = Throw "Failed to convert image to stencil. The model did not return an image."
  ∧ TattooAIService.suggestPlacement (H := Demo.silent) svc "a rose" "Arm"
    = Throw (Demo.syntaxError None)
  ∧ (∃ w r, AIToolsPanel.generateDesign svc Demo.asking = (waiting, Some w)
       ∧ AIToolsPanel.resume 1700000000000 w waiting = (r, None)
       ∧ AIToolsPanel.aiTools r
         = Some {| AIToolsPanel.prompt := "a rose";
                   AIToolsPanel.modalContent :=
                     AIToolsPanel.errorModal "AI failed to generate a design." |}
       ∧ Store.isLoading (AIToolsPanel.store r) = false)
  ∧ (∃ w r, AIToolsPanel.generateDesign svc Demo.asking = (waiting, Some w)
       ∧ AIToolsPanel.resume 1700000000000 w away = (r, None)
       ∧ AIToolsPanel.aiTools r = None
       ∧ Store.isLoading (AIToolsPanel.store r) = false)
  ∧ (∃ w r, AIToolsPanel.convertToStencil svc Demo.asking
            = (AIToolsPanel.on_store
                 (Store.setLoading true "Converting to stencil...") Demo.asking, Some w)
       ∧ AIToolsPanel.resume 1700000000000 w waiting = (r, None)
       ∧ AIToolsPanel.aiTools r
         = Some {| AIToolsPanel.prompt := "a rose";
                   AIToolsPanel.modalContent :=
                     AIToolsPanel.errorModal
                       "Failed to convert image to stencil. The model did not return an image." |})
  ∧ (∃ w r, AIToolsPanel.suggestPlacement svc Demo.asking
            = (AIToolsPanel.on_store
                 (Store.setLoading true "Getting placement advice...") Demo.asking, Some w)
       ∧ AIToolsPanel.resume 1700000000000 w waiting = (r, None)
       ∧ AIToolsPanel.aiTools r
         = Some {| AIToolsPanel.prompt := "a rose";
                   AIToolsPanel.modalContent :=
                     AIToolsPanel.errorModal (Demo.syntaxError None) |}).
Proof.
  intros svc p imageData waiting away.
  destruct (ai_operation_failure_shown (H := Demo.silent) svc 1700000000000
              Demo.asking waiting p "AI failed to generate a design." eq_refl)
    as (Hgen & _ & _).
  destruct (ai_operation_failure_shown (H := Demo.silent) svc 1700000000000
              Demo.asking away p "AI failed to generate a design." eq_refl)
    as (Haway & _ & _).
  destruct (ai_operation_failure_shown (H := Demo.silent) svc 1700000000000
              Demo.asking waiting p
              "Failed to convert image to stencil. The model did not return an image."
              eq_refl)
    as (_ & Hstencil & _).
  destruct (ai_operation_failure_shown (H := Demo.silent) svc 1700000000000
              Demo.asking waiting p (Demo.syntaxError None) eq_refl)
    as (_ & _ & Hplace).
  split_and!; [reflexivity..| | | |].
  - destruct (Hgen Demo.sketch eq_refl eq_refl eq_refl)
      as (w & r & Hclick & Hresume & Hload & _ & Hshown & _).
    exists w, r. split_and!; [exact Hclick|exact Hresume| |exact Hload].
    exact (Hshown p eq_refl eq_refl).
  - destruct (Haway Demo.sketch eq_refl eq_refl eq_refl)
      as (w & r & Hclick & Hresume & Hload & _ & _ & Hgone).
    exists w, r. split_and!; [exact Hclick|exact Hresume| |exact Hload].
    exact (Hgone (or_introl eq_refl)).
  - destruct (Hstencil Demo.sketch imageData eq_refl eq_refl eq_refl)
      as (w & r & Hclick & Hresume & _ & _ & Hshown & _).
    exists w, r. split_and!; [exact Hclick|exact Hresume|].
    exact (Hshown p eq_refl eq_refl).
  - destruct (Hplace eq_refl eq_refl)
      as (w & r & Hclick & Hresume & _ & _ & Hshown & _).
    exists w, r. split_and!; [exact Hclick|exact Hresume|].
    exact (Hshown p eq_refl eq_refl).
Defined.

(** [redo] called when the write of an [undo] has put the index back to 1
    under the three entries recorded for two strokes. *)
Lemma redo_reads_next_snapshot_witness :
  let s := Store.undo_end (H := Demo.online) 1 Demo.second in
  Store.canvas s = Some Demo.sketch
  ∧ Store.history_parses (H := Demo.online) s
  ∧ (-1 ≤ Store.historyIndex s)%Z
  ∧ (Store.historyIndex s < Js.length (Store.history s) - 1)%Z
  ∧ Store.redo_begin (H := Demo.online) s = Normal (Some (2%Z, [true; true])).
Proof.
  intros s.
  assert (Store.history_parses (H := Demo.online) s) as Hp.
  { repeat constructor; by eexists. }
  assert (-1 ≤ Store.historyIndex s)%Z as Hlo by (vm_compute; discriminate).
  assert (Store.historyIndex s < Js.length (Store.history s) - 1)%Z as Hi
    by (vm_compute; reflexivity).
  destruct (proj1 (redo_reads_next_snapshot (H := Demo.online))
              s Demo.sketch eq_refl Hp Hlo Hi) as (snap & j & Hsnap & Hj & Hredo).
  injection Hsnap as <-. injection Hj as <-.
  split_and!; [reflexivity|exact Hp|exact Hlo|exact Hi|exact Hredo].
Defined.

(** Deleting one of two saved designs. *)
Lemma deleteDesign_loadDesign_witness :
  let first := DatabaseService.saveDesign (H := Demo.online)
                 1700000000000 1700000000000 (Demo.draft "11") ∅ in
  let second := DatabaseService.saveDesign (H := Demo.online)
                  1700000000500 1700000000500 (Demo.draft "10") first.2 in
  second.1 ≠ first.1
  ∧ DatabaseService.loadDesign first.1
      (DatabaseService.deleteDesign first.1 second.2) = None
  ∧ Design.canvas <$> DatabaseService.loadDesign second.1
                        (DatabaseService.deleteDesign first.1 second.2)
    = Some "10".
Proof.
  intros first second.
  assert (second.1 ≠ first.1) as Hne by (vm_compute; discriminate).
  destruct (deleteDesign_loadDesign first.1 second.2) as [Hgone Hkept].
  split_and!; [exact Hne|exact Hgone|].
  rewrite (Hkept second.1 Hne). vm_compute. reflexivity.
Defined.
